(** * Anomaly-detection service: datasets.py, train_lstm_model.py, model.py

    A shallow embedding of the three Python modules of the anomaly service
    and the properties of its specification.

    Conventions of the embedding.
    - A Python call either returns a value or raises; side effects made
      before a raise stay.  Computations are written in the [Py] monad
      below: a state transformer whose result is an [outcome].
      Only subclasses of [Exception] are modelled (they are what
      [except Exception] catches).
    - The values that flow through the service (samples, scores, windows)
      are carried as exact rationals ([Q]); the properties stated over them
      are about which values go where, about counts, shapes, exceptions and
      state, and none of them rests on the arithmetic being exact.  The
      arithmetic of [normalize_data] itself is studied on IEEE binary64
      numbers in the module [Float64].
    - scikit-learn, keras, pandas, joblib, the operating system and the
      import machinery are external to the repository; they enter through
      the interface [Lib], the progress lines that keras prints included. *)

From Stdlib Require Import QArith Qminmax Qabs Ascii String Floats.
From stdpp Require Import base tactics option list strings gmap pretty.

Local Open Scope Z_scope.

(** ** Exceptions and the [Py] monad *)

(** An exception object: its class name and [str(e)]. *)
Record exn := Exc { exc_class : string; exc_str : string }.

Definition ValueError (msg : string) : exn := Exc "ValueError" msg.
Definition IndexError (msg : string) : exn := Exc "IndexError" msg.
Definition KeyError (msg : string) : exn := Exc "KeyError" msg.
Definition FileNotFoundError (msg : string) : exn := Exc "FileNotFoundError" msg.
Definition UnpicklingError (msg : string) : exn := Exc "UnpicklingError" msg.

Inductive outcome (A : Type) : Type :=
  | Return (a : A)
  | Raise (e : exn).
Arguments Return {A} a.
Arguments Raise {A} e.

Definition Py (St A : Type) : Type := St -> outcome A * St.

Definition ret {St A} (a : A) : Py St A := fun s => (Return a, s).
Definition raise {St A} (e : exn) : Py St A := fun s => (Raise e, s).
Definition bind {St A B} (m : Py St A) (k : A -> Py St B) : Py St B :=
  fun s => match m s with
           | (Return a, s') => k a s'
           | (Raise e, s') => (Raise e, s')
           end.
(** [try: m except Exception as e: h e] *)
Definition try_except {St A} (m : Py St A) (h : exn -> Py St A) : Py St A :=
  fun s => match m s with
           | (Return a, s') => (Return a, s')
           | (Raise e, s') => h e s'
           end.
Definition get {St} : Py St St := fun s => (Return s, s).
Definition gets {St A} (f : St -> A) : Py St A := fun s => (Return (f s), s).
Definition modify {St} (f : St -> St) : Py St unit := fun s => (Return tt, f s).
(** A call that cannot touch the state. *)
Definition lift {St A} (o : outcome A) : Py St A := fun s => (o, s).

Declare Scope py_scope.
Delimit Scope py_scope with py.
Notation "x <- m ;; k" := (bind m (fun x => k))
  (at level 100, m at next level, right associativity) : py_scope.
Notation "m ;;; k" := (bind m (fun _ => k))
  (at level 100, right associativity) : py_scope.

(** Pure fallible code: the same monad without state. *)
Definition obind {A B} (o : outcome A) (k : A -> outcome B) : outcome B :=
  match o with Return a => k a | Raise e => Raise e end.

Fixpoint omap {A B} (f : A -> outcome B) (l : list A) : outcome (list B) :=
  match l with
  | [] => Return []
  | x :: xs => obind (f x) (fun y => obind (omap f xs) (fun ys => Return (y :: ys)))
  end.

(** ** numpy and Python built-ins used by the service *)

Module Np.

(** A numpy array of float64, one- or two-dimensional. *)
Inductive ndarray :=
  | Arr1 (xs : list Q)
  | Arr2 (rows : list (list Q)).

(** [len(a)]: the size of the first axis. *)
Definition len (a : ndarray) : nat :=
  match a with Arr1 xs => length xs | Arr2 rows => length rows end.

(** [a.reshape(-1, 1)] on a one-dimensional array. *)
Definition reshape_col (xs : list Q) : list (list Q) := map (fun x => [x]) xs.

(** [np.min], [np.max]: raise on an empty array. *)
Definition min (xs : list Q) : outcome Q :=
  match xs with
  | [] => Raise (ValueError "zero-size array to reduction operation minimum which has no identity")
  | x :: rest => Return (foldl Qmin x rest)
  end.
Definition max (xs : list Q) : outcome Q :=
  match xs with
  | [] => Raise (ValueError "zero-size array to reduction operation maximum which has no identity")
  | x :: rest => Return (foldl Qmax x rest)
  end.
(** [np.mean]: sum over count.  On the empty array numpy gives nan, which
    has no rational value; the quotient by zero stands for it. *)
Definition mean (xs : list Q) : Q :=
  (foldl Qplus 0 xs / inject_Z (Z.of_nat (length xs)))%Q.

(** [range(n)] for a Python int [n]. *)
Definition range (n : Z) : list Z := map Z.of_nat (seq 0 (Z.to_nat n)).

(** An index of a slice bound: negative bounds count from the end, and
    every bound is clipped to [0, len]. *)
Definition slice_bound (n i : Z) : Z :=
  if i <? 0 then Z.max 0 (i + n) else Z.min i n.

(** [l[start:stop]]. *)
Definition slice {A} (l : list A) (start stop : Z) : list A :=
  let n := Z.of_nat (length l) in
  let s := slice_bound n start in
  let e := slice_bound n stop in
  take (Z.to_nat (e - s)) (drop (Z.to_nat s) l).

(** Whether the rows all have one length. *)
Definition same_lengths (rows : list (list Q)) : bool :=
  match rows with
  | [] => true
  | r :: rest => forallb (fun r' => Nat.eqb (length r') (length r)) rest
  end.

(** [np.array(rows)] on a Python list of one-dimensional arrays: the rows
    packed into a two-dimensional array, or [ValueError] when they do not
    have one length (numpy 1.24 and later; before that, an array of
    objects with a warning).  The empty list gives the empty array, of
    shape [(0,)]. *)
Definition array_of_rows (rows : list (list Q)) : outcome (list (list Q)) :=
  if same_lengths rows then Return rows
  else Raise (ValueError
    ("setting an array element with a sequence. The requested array has an "
     +:+ "inhomogeneous shape after 1 dimensions. The detected shape was ("
     +:+ pretty (length rows) +:+ ",) + inhomogeneous part.")).

End Np.

(** ** datasets.py *)

Module DatasetLoader.

Definition eps : Q := 1 # 100000000.

(** [normalize_data(data)]: min-max scaling with the [1e-8] guard, on the
    values as the rest of the service carries them.  [Float64.normalize_data]
    below is the same function with float64 arithmetic. *)
Definition normalize_data (data : list Q) : outcome (list Q * Q * Q) :=
  obind (Np.min data) (fun min_val =>
  obind (Np.max data) (fun max_val =>
  let normalized :=
    map (fun v => ((v - min_val) / (max_val - min_val + eps))%Q) data in
  Return (normalized, min_val, max_val))).

(** The list [sequences] that the loop of [create_sequences] builds: one
    slice per start index in [range(len(data) - seq_length + 1)]. *)
Definition sequences (data : list Q) (seq_length : Z) : list (list Q) :=
  map (fun i => Np.slice data i (i + seq_length))
      (Np.range (Z.of_nat (length data) - seq_length + 1)).

(** [create_sequences(data, seq_length)]: the slices packed by [np.array]. *)
Definition create_sequences (data : list Q) (seq_length : Z)
  : outcome (list (list Q)) :=
  Np.array_of_rows (sequences data seq_length).

End DatasetLoader.

(** ** [normalize_data] on IEEE binary64 numbers

    The same function with the arithmetic numpy performs: float64
    subtraction, addition and division, each rounded to nearest, with
    infinities and nan.  numpy divides without raising (a division by zero
    or an invalid operation gives a warning and inf or nan). *)

Module Float64.
Local Open Scope float_scope.

(** The reductions of [np.min] and [np.max]: nan propagates. *)
Definition minimum (a b : float) : float :=
  if is_nan a then a else if is_nan b then b else if b <? a then b else a.
Definition maximum (a b : float) : float :=
  if is_nan a then a else if is_nan b then b else if a <? b then b else a.

Definition np_min (xs : list float) : outcome float :=
  match xs with
  | [] => Raise (ValueError "zero-size array to reduction operation minimum which has no identity")
  | x :: rest => Return (foldl minimum x rest)
  end.
Definition np_max (xs : list float) : outcome float :=
  match xs with
  | [] => Raise (ValueError "zero-size array to reduction operation maximum which has no identity")
  | x :: rest => Return (foldl maximum x rest)
  end.

(** The binary64 number that the literal [1e-8] denotes. *)
Definition eps : float := 0x1.5798ee2308c3ap-27.

(** [normalize_data(data)] *)
Definition normalize_data (data : list float) : outcome (list float * float * float) :=
  obind (np_min data) (fun min_val =>
  obind (np_max data) (fun max_val =>
  let normalized :=
    map (fun v => (v - min_val) / (max_val - min_val + eps)) data in
  Return (normalized, min_val, max_val))).

(** Whether a scaled value lies in [0, 1]. *)
Definition in_unit_range (n : float) : bool := (0 <=? n) && (n <=? 1).

End Float64.

(** ** The external libraries *)

(** The world outside the process: files by path (their content as the
    library that wrote them serialised it), directories, the wall clock as
    [datetime.now().isoformat()] reads it, and what was printed. *)
Record World (bytes : Type) := MkWorld {
  files : gmap string bytes;
  dirs : gset string;
  clock : string;
  stdout : list string
}.
Arguments MkWorld {bytes} _ _ _ _.
Arguments files {bytes} _.
Arguments dirs {bytes} _.
Arguments clock {bytes} _.
Arguments stdout {bytes} _.

(** [obj]: the objects of the libraries (scalers, forests, keras models),
    handled by the service only through their methods.  A method that
    updates its receiver returns the receiver's new state, also when it
    raises.  [cell]: a value of a pandas column. *)
Class Lib (obj cell bytes : Type) := {
  (* sklearn.preprocessing.StandardScaler *)
  StandardScaler : obj;
  fit_transform : obj -> list (list Q) -> outcome (list (list Q)) * obj;
  transform : obj -> list (list Q) -> outcome (list (list Q));
  (* sklearn.ensemble.IsolationForest(contamination, random_state, n_estimators) *)
  IsolationForest : Q -> Z -> Z -> obj;
  fit : obj -> list (list Q) -> outcome unit * obj;
  score_samples : obj -> list (list Q) -> outcome (list Q);
  predict_samples : obj -> list (list Q) -> outcome (list Z);
  (* keras: the compiled Sequential of build_lstm_model, and Model.fit
     (x, y, epochs, batch_size, validation_split) *)
  Sequential_compiled : Z -> Z -> outcome obj;
  keras_fit : obj -> list (list (list Q)) -> list (list (list Q)) ->
              Z -> Z -> Q -> outcome unit * obj;
  (* what Model.fit(x, y, epochs, batch_size, verbose=1) writes to the
     standard output, up to its return or its exception *)
  fit_progress : obj -> list (list (list Q)) -> Z -> Z -> list string;
  (* joblib *)
  pickle_dumps : obj -> bytes;
  pickle_loads : bytes -> outcome obj;
  (* pandas *)
  read_csv : bytes -> outcome (list (string * list cell));
  astype_float : cell -> outcome Q;
  (* os *)
  dirname : string -> string;
  mkdir_error : World bytes -> string -> option exn;
  write_error : World bytes -> string -> option exn;
  (* import: the exception of [import name], if the module cannot be
     imported *)
  import_error : string -> option exn
}.

Local Open Scope py_scope.

Section Service.
Context {obj cell bytes : Type} `{L : Lib obj cell bytes}.

(** *** os, joblib, datetime, print *)

Definition os_path_exists (p : string) : Py (World bytes) bool :=
  gets (fun w => bool_decide (is_Some (files w !! p))).

(** [os.makedirs(d, exist_ok=True)] *)
Definition os_makedirs (d : string) : Py (World bytes) unit := fun w =>
  match mkdir_error w d with
  | Some e => (Raise e, w)
  | None => (Return tt, MkWorld (files w) ({[d]} ∪ dirs w) (clock w) (stdout w))
  end.

(** The world once [o] has been written to the file [p]. *)
Definition written (p : string) (o : obj) (w : World bytes) : World bytes :=
  MkWorld (<[p := pickle_dumps o]> (files w)) (dirs w) (clock w) (stdout w).

Definition joblib_dump (o : obj) (p : string) : Py (World bytes) unit := fun w =>
  match write_error w p with
  | Some e => (Raise e, w)
  | None => (Return tt, written p o w)
  end.

Definition joblib_load (p : string) : Py (World bytes) obj := fun w =>
  match files w !! p with
  | None => (Raise (FileNotFoundError p), w)
  | Some b => (pickle_loads b, w)
  end.

Definition now_isoformat : Py (World bytes) string := gets clock.

Definition print (line : string) : Py (World bytes) unit :=
  modify (fun w => MkWorld (files w) (dirs w) (clock w) (stdout w ++ [line])).

(** ** datasets.py, the part that reads tables *)

Definition DataFrame : Type := list (string * list cell).

(** [DatasetLoader.load_csv(file_path)] *)
Definition load_csv (file_path : string) : Py (World bytes) DataFrame := fun w =>
  match files w !! file_path with
  | None => (Raise (FileNotFoundError file_path), w)
  | Some b => (read_csv b, w)
  end.

(** [df[column]] *)
Fixpoint df_column (df : DataFrame) (column : string) : outcome (list cell) :=
  match df with
  | [] => Raise (KeyError column)
  | (name, values) :: rest =>
      if String.eqb name column then Return values else df_column rest column
  end.

(** [DatasetLoader.prepare_data(df, seq_length, column)] *)
Definition prepare_data (df : DataFrame) (seq_length : Z) (column : option string)
  : outcome (list (list Q) * Q * Q) :=
  obind (match column with
         | Some c => Return c
         | None => match df with
                   | [] => Raise (IndexError "index 0 is out of bounds for axis 0 with size 0")
                   | (c, _) :: _ => Return c
                   end
         end) (fun column =>
  obind (df_column df column) (fun values =>
  obind (omap astype_float values) (fun data =>
  obind (DatasetLoader.normalize_data data) (fun r =>
  let '(normalized_data, min_val, max_val) := r in
  obind (DatasetLoader.create_sequences normalized_data seq_length) (fun sequences =>
  Return (sequences, min_val, max_val)))))).

(** ** train_lstm_model.py *)

Definition build_lstm_model (seq_length features : Z) : outcome obj :=
  Sequential_compiled seq_length features.

(** [sequences.shape[1]] of the packed windows. *)
Definition shape1 (sequences : list (list Q)) : outcome Z :=
  match sequences with
  | [] => Raise (IndexError "tuple index out of range")
  | w :: _ => Return (Z.of_nat (length w))
  end.

(** [sequences.reshape((sequences.shape[0], sequences.shape[1], 1))] *)
Definition reshape_samples (sequences : list (list Q)) : list (list (list Q)) :=
  map (map (fun x => [x])) sequences.

(** Lines written to the standard output by a library call. *)
Definition print_lines (lines : list string) : Py (World bytes) unit :=
  modify (fun w => MkWorld (files w) (dirs w) (clock w) (stdout w ++ lines)).

(** [model.fit(X_train, X_train, epochs, batch_size, verbose=1,
    validation_split=0.2)]: the progress lines go to the standard output,
    whether the fitting then returns or raises. *)
Definition fit_verbose (model : obj) (X_train : list (list (list Q)))
    (epochs batch_size : Z) : Py (World bytes) obj :=
  let '(r, model') := keras_fit model X_train X_train epochs batch_size (1 # 5) in
  print_lines (fit_progress model X_train epochs batch_size) ;;;
  lift r ;;;
  ret model'.

(** [train_lstm_model(sequences, epochs, batch_size)] *)
Definition train_lstm_model (sequences : list (list Q)) (epochs batch_size : Z)
  : Py (World bytes) obj :=
  seq_length <- lift (shape1 sequences) ;;
  model <- lift (build_lstm_model seq_length 1) ;;
  let X_train := reshape_samples sequences in
  fit_verbose model X_train epochs batch_size.

(** ** model.py *)

Record AnomalyDetectionModel := MkModel {
  model_path : string;
  scaler_path : string;
  scaler : obj;
  model : option obj;
  is_trained : bool;
  threshold : Q
}.

Definition with_scaler (o : obj) (m : AnomalyDetectionModel) :=
  MkModel (model_path m) (scaler_path m) o (model m) (is_trained m) (threshold m).
Definition with_model (o : option obj) (m : AnomalyDetectionModel) :=
  MkModel (model_path m) (scaler_path m) (scaler m) o (is_trained m) (threshold m).
Definition with_is_trained (b : bool) (m : AnomalyDetectionModel) :=
  MkModel (model_path m) (scaler_path m) (scaler m) (model m) b (threshold m).
Definition with_threshold (t : Q) (m : AnomalyDetectionModel) :=
  MkModel (model_path m) (scaler_path m) (scaler m) (model m) (is_trained m) t.

(** [AnomalyDetectionModel(model_path, scaler_path)] *)
Definition init (model_path scaler_path : string)
  : Py (World bytes) AnomalyDetectionModel :=
  let self := MkModel model_path scaler_path StandardScaler None false (1 # 2) in
  os_makedirs (dirname model_path) ;;;
  ret self.

(** A method runs on its receiver and the world. *)
Record MState := MkMState { self : AnomalyDetectionModel; world : World bytes }.

Definition on_self (f : AnomalyDetectionModel -> AnomalyDetectionModel)
  : Py MState unit :=
  modify (fun s => MkMState (f (self s)) (world s)).

Definition in_world {A} (m : Py (World bytes) A) : Py MState A := fun s =>
  let '(r, w) := m (world s) in (r, MkMState (self s) w).

(** [self.scaler.<method>(...)] for a method that updates the scaler. *)
Definition call_scaler {A} (f : obj -> outcome A * obj) : Py MState A := fun s =>
  let '(r, o) := f (scaler (self s)) in
  (r, MkMState (with_scaler o (self s)) (world s)).

(** [self.model.<method>(...)]; [None] has no methods. *)
Definition call_model {A} (meth : string) (f : obj -> outcome A * obj)
  : Py MState A := fun s =>
  match model (self s) with
  | None =>
      (Raise (Exc "AttributeError"
                  ("'NoneType' object has no attribute '" +:+ meth +:+ "'")), s)
  | Some m =>
      let '(r, o) := f m in
      (r, MkMState (with_model (Some o) (self s)) (world s))
  end.

(** The argument of [train] and [predict]: a list or an array. *)
Inductive array_like :=
  | PyList (xs : list Q)
  | NdArray (a : Np.ndarray).

(** [np.array(data)] when [data] is a list, then [reshape(-1, 1)] when
    one-dimensional. *)
Definition np_array (data : array_like) : Np.ndarray :=
  match data with PyList xs => Np.Arr1 xs | NdArray a => a end.

Definition as_2d (data : array_like) : list (list Q) :=
  match np_array data with
  | Np.Arr1 xs => Np.reshape_col xs
  | Np.Arr2 rows => rows
  end.

Inductive train_report :=
  | TrainSuccess (message : string) (samples_trained : nat)
                 (mean_score max_score min_score : Q) (timestamp : string)
  | TrainError (message : string) (timestamp : string).

Definition train_status (r : train_report) : string :=
  match r with TrainSuccess _ _ _ _ _ _ => "success" | TrainError _ _ => "error" end.

Definition train_body (data : array_like) (contamination : Q)
  : Py MState train_report :=
  let data := as_2d data in
  data_scaled <- call_scaler (fun sc => fit_transform sc data) ;;
  on_self (with_model (Some (IsolationForest contamination 42 100))) ;;;
  call_model "fit" (fun m => fit m data_scaled) ;;;
  on_self (with_is_trained true) ;;;
  s <- get ;;
  match model (self s) with
  | Some m => in_world (joblib_dump m (model_path (self s)))
  | None => ret tt (* not reached: self.model was assigned above *)
  end ;;;
  in_world (joblib_dump (scaler (self s)) (scaler_path (self s))) ;;;
  raw <- call_model "score_samples" (fun m => (score_samples m data_scaled, m)) ;;
  let scores := map Qopp raw in
  let mean_score := Np.mean scores in
  max_score <- lift (Np.max scores) ;;
  min_score <- lift (Np.min scores) ;;
  ts <- in_world now_isoformat ;;
  ret (TrainSuccess "Model trained successfully" (length data)
                    mean_score max_score min_score ts).

(** [train(self, data, contamination)] *)
Definition train (data : array_like) (contamination : Q) : Py MState train_report :=
  try_except (train_body data contamination)
    (fun e => ts <- in_world now_isoformat ;; ret (TrainError (exc_str e) ts)).

(** The scoring steps inside the [try] of [predict]. *)
Definition predict_body (data : array_like) : Py MState (list Q * list Z) :=
  let data := as_2d data in
  data_scaled <- call_scaler (fun sc => (transform sc data, sc)) ;;
  raw <- call_model "score_samples" (fun m => (score_samples m data_scaled, m)) ;;
  let scores := map Qopp raw in
  predictions <- call_model "predict" (fun m => (predict_samples m data_scaled, m)) ;;
  let labels := map (fun p => if p =? -1 then 1 else 0) predictions in
  ret (scores, labels).

Definition not_trained_msg : string :=
  "Model not trained. Please train the model first.".

(** [predict(self, data)] *)
Definition predict (data : array_like) : Py MState (list Q * list Z) :=
  s <- get ;;
  missing <- (if is_trained (self s) then ret false
              else e <- in_world (os_path_exists (model_path (self s))) ;;
                   ret (negb e)) ;;
  if missing : bool then raise (ValueError not_trained_msg) else
  (match model (self s) with
   | None =>
       m <- in_world (joblib_load (model_path (self s))) ;;
       on_self (with_model (Some m)) ;;;
       sc <- in_world (joblib_load (scaler_path (self s))) ;;
       on_self (with_scaler sc)
   | Some _ => ret tt
   end) ;;;
  try_except (predict_body data)
    (fun e => raise (ValueError ("Error during prediction: " +:+ exc_str e))).

(** [max(labels)] of a Python list. *)
Definition py_max (l : list Z) : outcome Z :=
  match l with
  | [] => Raise (ValueError "max() arg is an empty sequence")
  | x :: rest => Return (foldl Z.max x rest)
  end.

Record sequence_result := MkSeqResult {
  scores : list Q;
  labels : list Z;
  is_anomalous : bool
}.

Inductive batch_report :=
  | BatchSuccess (predictions : gmap string sequence_result) (timestamp : string)
  | BatchError (message : string) (timestamp : string).

Definition batch_status (r : batch_report) : string :=
  match r with BatchSuccess _ _ => "success" | BatchError _ _ => "error" end.

(** The predictions a report carries; an error report has no such key. *)
Definition batch_predictions (r : batch_report) : option (gmap string sequence_result) :=
  match r with BatchSuccess p _ => Some p | BatchError _ _ => None end.

Definition sequence_key (i : nat) : string := "sequence_" +:+ pretty i.

(** One turn of the loop up to the assignment: [predict] on the series,
    then the entry built from its scores and labels. *)
Definition series_result (data_point : list Q) : Py MState sequence_result :=
  r <- predict (NdArray (Np.Arr1 data_point)) ;;
  let '(scores, labels) := r in
  m <- lift (py_max labels) ;;
  ret (MkSeqResult scores labels (bool_decide (m = 1))).

(** The [for] loop of [predict_batch], from index [i] on. *)
Fixpoint predict_batch_loop (i : nat) (data_list : list (list Q))
    (results : gmap string sequence_result)
  : Py MState (gmap string sequence_result) :=
  match data_list with
  | [] => ret results
  | data_point :: rest =>
      entry <- series_result data_point ;;
      predict_batch_loop (S i) rest (<[sequence_key i := entry]> results)
  end.

(** [predict_batch(self, data_list)] *)
Definition predict_batch (data_list : list (list Q)) : Py MState batch_report :=
  try_except
    (results <- predict_batch_loop 0 data_list ∅ ;;
     ts <- in_world now_isoformat ;;
     ret (BatchSuccess results ts))
    (fun e => ts <- in_world now_isoformat ;; ret (BatchError (exc_str e) ts)).

Definition in_unit_interval (t : Q) : bool := Qle_bool 0 t && Qle_bool t 1.

(** [set_threshold(self, threshold)] *)
Definition set_threshold (t : Q) : Py MState unit :=
  if in_unit_interval t then on_self (with_threshold t)
  else raise (ValueError "Threshold must be between 0 and 1").

(** The dictionary [get_model_info] returns. *)
Record model_info := MkInfo {
  info_is_trained : bool;
  info_model_path : string;
  info_scaler_path : string;
  info_threshold : Q;
  info_model_type : string;
  info_timestamp : string
}.

(** [get_model_info(self)] *)
Definition get_model_info : Py MState model_info :=
  s <- get ;;
  ts <- in_world now_isoformat ;;
  ret (MkInfo (is_trained (self s)) (model_path (self s)) (scaler_path (self s))
              (threshold (self s)) "IsolationForest" ts).

(** *** The module-level singleton *)

Record Process := MkProcess {
  model_instance : option AnomalyDetectionModel;
  pworld : World bytes
}.

Definition in_pworld {A} (m : Py (World bytes) A) : Py Process A := fun p =>
  let '(r, w) := m (pworld p) in (r, MkProcess (model_instance p) w).

(** [get_model()]: the instance it returns is the global one. *)
Definition get_model : Py Process AnomalyDetectionModel := fun p =>
  match model_instance p with
  | Some m => (Return m, p)
  | None =>
      match init "models/anomaly_model.pkl" "models/scaler.pkl" (pworld p) with
      | (Return m, w) => (Return m, MkProcess (Some m) w)
      | (Raise e, w) => (Raise e, MkProcess None w)
      end
  end.

(** Statements on the instance [get_model()] returned: they update the
    global object. *)
Definition on_instance {A} (m : Py MState A) : Py Process A := fun p =>
  match model_instance p with
  | None => (Raise (Exc "AttributeError" "'NoneType' object has no attribute"), p)
  | Some inst =>
      let '(r, s) := m (MkMState inst (pworld p)) in
      (r, MkProcess (Some (self s)) (world s))
  end.

(** [load_model()] *)
Definition load_model : Py Process AnomalyDetectionModel :=
  m <- get_model ;;
  e1 <- in_pworld (os_path_exists (model_path m)) ;;
  e2 <- (if e1 : bool then in_pworld (os_path_exists (scaler_path m)) else ret false) ;;
  (if e2 : bool then
     on_instance (
       o <- in_world (joblib_load (model_path m)) ;;
       on_self (with_model (Some o)) ;;;
       sc <- in_world (joblib_load (scaler_path m)) ;;
       on_self (with_scaler sc) ;;;
       on_self (with_is_trained true))
   else ret tt) ;;;
  on_instance (gets self).

(** [from module import name] inside a function: the module is imported
    when the statement runs, and a failure is raised there. *)
Definition import_module (name : string) : Py Process unit := fun p =>
  match import_error name with
  | Some e => (Raise e, p)
  | None => (Return tt, p)
  end.

(** The [try] statement of [train_with_dataset]. *)
Definition train_with_dataset_try (csv_path : string) : Py Process bool :=
  try_except
    (df <- in_pworld (load_csv csv_path) ;;
     r <- lift (prepare_data df 30 None) ;;
     let '(sequences, min_val, max_val) := r in
     if bool_decide (length sequences = 0%nat) then
       in_pworld (print "Error: No sequences generated from dataset") ;;;
       ret false
     else
       lstm_model <- in_pworld (train_lstm_model sequences 50 32) ;;
       get_model ;;;
       on_instance (on_self (with_model (Some lstm_model)) ;;;
                    on_self (with_is_trained true)) ;;;
       ret true)
    (fun e =>
       in_pworld (print ("Training error: " +:+ exc_str e)) ;;;
       ret false).

(** [train_with_dataset(csv_path)]: the two imports, which stand before the
    [try], then the [try] statement. *)
Definition train_with_dataset (csv_path : string) : Py Process bool :=
  import_module "datasets" ;;;
  import_module "train_lstm_model" ;;;
  train_with_dataset_try csv_path.

(** *** Derived notions used to state the properties *)

(** Scoring with a given scaler and forest: [transform] (never
    [fit_transform]), then the forest's scores negated and its decisions
    turned into labels. *)
Definition score_with (sc m : obj) (data : array_like) : outcome (list Q * list Z) :=
  obind (transform sc (as_2d data)) (fun data_scaled =>
  obind (score_samples m data_scaled) (fun raw =>
  obind (predict_samples m data_scaled) (fun predictions =>
  Return (map Qopp raw, map (fun p => if p =? -1 then 1 else 0) predictions)))).

(** What the [except] clause of [predict] does to an outcome. *)
Definition prediction_error {A} (o : outcome A) : outcome A :=
  match o with
  | Return a => Return a
  | Raise e => Raise (ValueError ("Error during prediction: " +:+ exc_str e))
  end.

(** The entries of the series of a batch, computed one after the other. *)
Fixpoint each_series (data_list : list (list Q)) : Py MState (list sequence_result) :=
  match data_list with
  | [] => ret []
  | data_point :: rest =>
      entry <- series_result data_point ;;
      entries <- each_series rest ;;
      ret (entry :: entries)
  end.

(** Entries stored under the keys [sequence_i], [sequence_(i+1)], ... *)
Fixpoint store_results (i : nat) (entries : list sequence_result)
    (results : gmap string sequence_result) : gmap string sequence_result :=
  match entries with
  | [] => results
  | entry :: rest => store_results (S i) rest (<[sequence_key i := entry]> results)
  end.

(** [predict] called on each input in turn; the state it leaves. *)
Fixpoint after_predicts (inputs : list array_like) (s : MState) : MState :=
  match inputs with
  | [] => s
  | d :: rest => after_predicts rest (snd (predict d s))
  end.

End Service.

(** ** A small instance of the libraries

    Enough of scikit-learn, keras, pandas, joblib and os to run the service
    on concrete inputs: a scaler that centres on the mean of the first
    column, a forest that scores a sample by its distance to zero and
    checks its contamination when fitted (as scikit-learn does), and files
    that hold either a pickled object or a table. *)

Module Toy.

Inductive toy_obj :=
  | ScalerNew
  | ScalerFitted (mean : Q)
  | ForestNew (contamination : Q)
  | ForestFitted (contamination cut : Q)
  | Lstm (seq_length : Z) (fitted : bool).

Inductive toy_cell :=
  | Num (q : Q)
  | Str (s : string).

Inductive toy_bytes :=
  | Pickled (o : toy_obj)
  | Table (df : list (string * list toy_cell)).

Definition first_column (data : list (list Q)) : list Q :=
  map (fun row => match row with x :: _ => x | [] => 0%Q end) data.

Definition no_samples : exn :=
  ValueError "Found array with 0 sample(s) while a minimum of 1 is required.".
Definition not_fitted : exn :=
  Exc "NotFittedError" "This instance is not fitted yet.".
Definition no_attribute : exn :=
  Exc "AttributeError" "object has no such attribute".

Definition toy_fit_transform (sc : toy_obj) (data : list (list Q))
  : outcome (list (list Q)) * toy_obj :=
  match sc with
  | ScalerNew | ScalerFitted _ =>
      match data with
      | [] => (Raise no_samples, ScalerNew)
      | _ => let mu := Qred (Np.mean (first_column data)) in
             (Return (map (map (fun x => Qred (x - mu))) data), ScalerFitted mu)
      end
  | _ => (Raise no_attribute, sc)
  end.

Definition toy_transform (sc : toy_obj) (data : list (list Q))
  : outcome (list (list Q)) :=
  match sc with
  | ScalerFitted mu =>
      match data with
      | [] => Raise no_samples
      | _ => Return (map (map (fun x => Qred (x - mu))) data)
      end
  | ScalerNew => Raise not_fitted
  | _ => Raise no_attribute
  end.

Definition toy_fit (m : toy_obj) (data : list (list Q)) : outcome unit * toy_obj :=
  match m with
  | ForestNew c | ForestFitted c _ =>
      if negb (Qle_bool c 0) && Qle_bool c (1 # 2) then
        match Np.max (map Qabs (first_column data)) with
        | Return top => (Return tt, ForestFitted c (Qred ((1 - c) * top)))
        | Raise e => (Raise e, m)
        end
      else (Raise (Exc "InvalidParameterError"
                       "The 'contamination' parameter must be in the range (0.0, 0.5]."), m)
  | _ => (Raise no_attribute, m)
  end.

Definition toy_score_samples (m : toy_obj) (data : list (list Q)) : outcome (list Q) :=
  match m with
  | ForestFitted _ _ => Return (map (fun x => Qopp (Qabs x)) (first_column data))
  | ForestNew _ => Raise not_fitted
  | _ => Raise no_attribute
  end.

Definition toy_predict_samples (m : toy_obj) (data : list (list Q)) : outcome (list Z) :=
  match m with
  | ForestFitted _ cut =>
      Return (map (fun x => if Qle_bool (Qabs x) cut then 1 else -1) (first_column data))
  | ForestNew _ => Raise not_fitted
  | _ => Raise no_attribute
  end.

Definition toy_keras_fit (m : toy_obj) (x y : list (list (list Q)))
    (epochs batch_size : Z) (validation_split : Q) : outcome unit * toy_obj :=
  match m with
  | Lstm n _ => (Return tt, Lstm n true)
  | _ => (Raise no_attribute, m)
  end.

(** One line per epoch. *)
Definition toy_fit_progress (m : toy_obj) (x : list (list (list Q)))
    (epochs batch_size : Z) : list string :=
  map (fun i => "Epoch " +:+ pretty i +:+ "/" +:+ pretty epochs)
      (seq 1 (Z.to_nat epochs)).

Definition toy_pickle_loads (b : toy_bytes) : outcome toy_obj :=
  match b with
  | Pickled o => Return o
  | Table _ => Raise (UnpicklingError "invalid load key")
  end.

Definition toy_read_csv (b : toy_bytes) : outcome (list (string * list toy_cell)) :=
  match b with
  | Table [] => Raise (Exc "EmptyDataError" "No columns to parse from file")
  | Table df => Return df
  | Pickled _ => Raise (Exc "UnicodeDecodeError" "invalid start byte")
  end.

Definition toy_astype_float (c : toy_cell) : outcome Q :=
  match c with
  | Num q => Return q
  | Str s => Raise (ValueError ("could not convert string to float: " +:+ s))
  end.

(** The part of a path before its last slash. *)
Fixpoint toy_dirname_chars (p : list ascii) : list ascii :=
  match p with
  | [] => []
  | c :: rest =>
      if bool_decide ("/"%char ∈ rest) then c :: toy_dirname_chars rest else []
  end.
Definition toy_dirname (p : string) : string :=
  string_of_list_ascii (toy_dirname_chars (list_ascii_of_string p)).

Definition toy_mkdir_error (w : World toy_bytes) (d : string) : option exn :=
  if String.eqb d "" then Some (FileNotFoundError d) else None.

Definition toy_write_error (w : World toy_bytes) (p : string) : option exn :=
  let d := toy_dirname p in
  if String.eqb d "" || bool_decide (d ∈ dirs w) then None
  else Some (FileNotFoundError p).

#[global] Instance toy_lib : Lib toy_obj toy_cell toy_bytes := {|
  StandardScaler := ScalerNew;
  fit_transform := toy_fit_transform;
  transform := toy_transform;
  IsolationForest := fun c _ _ => ForestNew c;
  fit := toy_fit;
  score_samples := toy_score_samples;
  predict_samples := toy_predict_samples;
  Sequential_compiled := fun n _ => Return (Lstm n false);
  keras_fit := toy_keras_fit;
  fit_progress := toy_fit_progress;
  pickle_dumps := Pickled;
  pickle_loads := toy_pickle_loads;
  read_csv := toy_read_csv;
  astype_float := toy_astype_float;
  dirname := toy_dirname;
  mkdir_error := toy_mkdir_error;
  write_error := toy_write_error;
  import_error := fun _ => None
|}.


(** An empty disk at a fixed time. *)
Definition empty_world : World toy_bytes :=
  MkWorld ∅ ∅ "2024-01-01T00:00:00" [].

Definition default_model_path : string := "models/anomaly_model.pkl".
Definition default_scaler_path : string := "models/scaler.pkl".

(** [AnomalyDetectionModel()] on the empty disk. *)
Definition fresh : MState :=
  match init default_model_path default_scaler_path empty_world with
  | (Return m, w) => MkMState m w
  | (Raise _, w) => MkMState (MkModel "" "" ScalerNew None false 0) w
  end.

(** The instance after [train] on the ramp 1..5 with contamination 0.1. *)
Definition trained : MState := snd (train (PyList [1; 2; 3; 4; 5]%Q) (1 # 10) fresh).

(** A disk that holds a pickled forest at the model path and nothing at
    the scaler path; a disk that holds both. *)
Definition model_file_only : World toy_bytes :=
  written default_model_path (ForestFitted (1 # 10) (9 # 5)) empty_world.
Definition both_files : World toy_bytes :=
  written default_scaler_path (ScalerFitted 3) model_file_only.

Definition ramp (n : nat) : list Q := map (fun i => inject_Z (Z.of_nat i)) (seq 1 n).

(** A disk with a one-column table of forty values, one with a table too
    short for a window of thirty, and a process that has not touched its
    singleton yet. *)
Definition table_world (n : nat) : World toy_bytes :=
  MkWorld {[ "data.csv" := Table [("value", map Num (ramp n))] ]} ∅
          "2024-01-01T00:00:00" [].
Definition new_process (w : World toy_bytes)
  : Process (obj:=toy_obj) (bytes:=toy_bytes) :=
  MkProcess None w.

(** What [prepare_data] makes of the table of forty values. *)
Definition table40 : list (string * list toy_cell) :=
  [("value", map Num (ramp 40))].
Definition windows40 : list (list Q) :=
  Eval vm_compute in
    match prepare_data table40 30 None with
    | Return (sequences, _, _) => sequences
    | Raise _ => []
    end.

(** An instance whose files would go to a directory that does not exist. *)
Definition homeless : MState :=
  MkMState (MkModel "out/model.pkl" "out/scaler.pkl" ScalerNew None false (1 # 2))
           empty_world.

(** A disk whose scaler file is not a pickle. *)
Definition bad_scaler_file : World toy_bytes :=
  MkWorld (<[default_scaler_path := Table []]> (files model_file_only)) ∅
          "2024-01-01T00:00:00" [].

End Toy.


(** * Properties *)

(** ** Windowing and normalisation (datasets.py) *)

Section Slices.
Context {A : Type}.
Implicit Types (l : list A) (i n : nat).

Lemma slice_inside l i (len : Z) :
  0 <= len -> Z.of_nat i + len <= Z.of_nat (length l) ->
  Np.slice l (Z.of_nat i) (Z.of_nat i + len) = take (Z.to_nat len) (drop i l).
Proof.
  intros Hlen Hin. unfold Np.slice, Np.slice_bound.
  destruct (Z.ltb_spec (Z.of_nat i) 0) as [?|_]; [lia|].
  destruct (Z.ltb_spec (Z.of_nat i + len) 0) as [?|_]; [lia|].
  rewrite !Z.min_l by lia.
  replace (Z.to_nat (Z.of_nat i)) with i by lia.
  f_equal. lia.
Qed.

End Slices.

Lemma range_length (n : Z) : length (Np.range n) = Z.to_nat n.
Proof. unfold Np.range. by rewrite length_map, length_seq. Qed.

Lemma range_lookup (n : Z) (i : nat) :
  (i < Z.to_nat n)%nat -> Np.range n !! i = Some (Z.of_nat i).
Proof.
  intros Hi. unfold Np.range. rewrite list_lookup_fmap.
  by rewrite lookup_seq_lt.
Qed.

Lemma sequences_lookup (data : list Q) (len : Z) (i : nat) (w : list Q) :
  DatasetLoader.sequences data len !! i = Some w ->
  (i < Z.to_nat (Z.of_nat (length data) - len + 1))%nat /\
  w = Np.slice data (Z.of_nat i) (Z.of_nat i + len).
Proof.
  unfold DatasetLoader.sequences. intros Hw.
  assert (Hlt : (i < Z.to_nat (Z.of_nat (length data) - len + 1))%nat).
  { apply lookup_lt_Some in Hw. by rewrite length_map, range_length in Hw. }
  split; [done|].
  rewrite list_lookup_fmap, range_lookup in Hw by done.
  by injection Hw as <-.
Qed.

Lemma sequences_length (data : list Q) (len : Z) :
  length (DatasetLoader.sequences data len)
  = Z.to_nat (Z.of_nat (length data) - len + 1).
Proof. unfold DatasetLoader.sequences. by rewrite length_map, range_length. Qed.

(** [np.array] packs rows of one length, and returns nothing else than
    the rows it was given. *)
Lemma array_of_rows_uniform (rows : list (list Q)) (n : nat) :
  (forall r, r ∈ rows -> length r = n) -> Np.array_of_rows rows = Return rows.
Proof.
  intros Hall. unfold Np.array_of_rows.
  assert (Hsame : Np.same_lengths rows = true); [|by rewrite Hsame].
  destruct rows as [|r rest]; [done|]. simpl.
  apply forallb_forall. intros r' Hr'. apply Nat.eqb_eq.
  rewrite (Hall r) by apply list_elem_of_here.
  apply Hall, list_elem_of_further. by apply list_elem_of_In.
Qed.

Lemma array_of_rows_inv (rows packed : list (list Q)) :
  Np.array_of_rows rows = Return packed -> packed = rows.
Proof.
  unfold Np.array_of_rows. destruct (Np.same_lengths rows); [|done].
  by intros [= <-].
Qed.

Lemma array_of_rows_ragged (rows : list (list Q)) (r r' : list Q) :
  r ∈ rows -> r' ∈ rows -> length r <> length r' ->
  exists msg, Np.array_of_rows rows = Raise (ValueError msg).
Proof.
  intros Hr Hr' Hne. unfold Np.array_of_rows.
  destruct (Np.same_lengths rows) eqn:Hsame; [|by eexists].
  exfalso. destruct rows as [|r0 rest]; [by apply elem_of_nil in Hr|].
  simpl in Hsame. rewrite forallb_forall in Hsame.
  assert (Hlen : forall x, x ∈ r0 :: rest -> length x = length r0).
  { intros x Hx. apply elem_of_cons in Hx as [->|Hx]; [done|].
    apply Nat.eqb_eq, Hsame. by apply list_elem_of_In. }
  rewrite (Hlen r Hr), (Hlen r' Hr') in Hne. done.
Qed.

(** With a window length that is not negative every slice of the loop is
    whole, so the packing succeeds. *)
Lemma sequences_whole (data : list Q) (L : nat) (w : list Q) :
  w ∈ DatasetLoader.sequences data (Z.of_nat L) -> length w = L.
Proof.
  intros Hw. apply list_elem_of_lookup in Hw as [i Hi].
  apply sequences_lookup in Hi as [Hi ->].
  rewrite slice_inside by lia. rewrite Nat2Z.id.
  rewrite length_take, length_drop. lia.
Qed.

Lemma create_sequences_returns (data : list Q) (L : nat) :
  DatasetLoader.create_sequences data (Z.of_nat L)
  = Return (DatasetLoader.sequences data (Z.of_nat L)).
Proof.
  unfold DatasetLoader.create_sequences.
  apply (array_of_rows_uniform _ L). apply sequences_whole.
Qed.

Lemma create_sequences_inv (data : list Q) (len : Z) (windows : list (list Q)) :
  DatasetLoader.create_sequences data len = Return windows ->
  windows = DatasetLoader.sequences data len.
Proof. apply array_of_rows_inv. Qed.

(** C3. For a series of [N] values and a window length [L],
    [create_sequences] returns.  When [L <= N], it gives exactly
    [N - L + 1] windows, window [i] is the [L] consecutive values of the
    series from position [i] on, in their order (its element [j] is element
    [i + j] of the series); when [L > N] it gives no window. *)
Theorem create_sequences_windows (data : list Q) (L : nat) :
  let N := length data in
  exists windows,
    DatasetLoader.create_sequences data (Z.of_nat L) = Return windows /\
    ((L <= N)%nat ->
       length windows = (N - L + 1)%nat /\
       (forall i : nat, (i < N - L + 1)%nat ->
          windows !! i = Some (take L (drop i data))) /\
       (forall (i : nat) w, windows !! i = Some w ->
          length w = L /\
          forall j : nat, (j < L)%nat -> w !! j = data !! (i + j)%nat)) /\
    ((N < L)%nat -> windows = []).
Proof.
  intros N. exists (DatasetLoader.sequences data (Z.of_nat L)).
  split; [apply create_sequences_returns|]. split.
  - intros HLN. split; [|split].
    + rewrite sequences_length. lia.
    + intros i Hi. unfold DatasetLoader.sequences.
      rewrite list_lookup_fmap, range_lookup by lia. simpl.
      f_equal. rewrite slice_inside by lia. by rewrite Nat2Z.id.
    + intros i w Hw. apply sequences_lookup in Hw as [Hi ->].
      rewrite slice_inside by lia. rewrite Nat2Z.id. split.
      * rewrite length_take, length_drop. lia.
      * intros j Hj. rewrite lookup_take_lt by lia. by rewrite lookup_drop.
  - intros HNL. apply length_zero_iff_nil. rewrite sequences_length. lia.
Qed.

Lemma create_sequences_windows_witness :
  (exists windows,
     DatasetLoader.create_sequences (Toy.ramp 5) 3 = Return windows /\
     length windows = 3%nat /\
     windows !! 1%nat = Some [2; 3; 4]%Q) /\
  DatasetLoader.create_sequences (Toy.ramp 5) 6 = Return [].
Proof.
  destruct (create_sequences_windows (Toy.ramp 5) 3) as (w3 & Hrun3 & Hin & _).
  destruct (create_sequences_windows (Toy.ramp 5) 6) as (w6 & Hrun6 & _ & Hout).
  destruct Hin as (Hlen & Hwin & _); [simpl; lia|].
  split.
  - exists w3. split; [exact Hrun3|]. split; [exact Hlen|].
    apply (Hwin 1%nat). simpl. lia.
  - rewrite <- (Hout ltac:(simpl; lia)). exact Hrun6.
Defined.

(** *** [normalize_data] on binary64 numbers *)

Section Binary64.
Local Open Scope float_scope.

Lemma finite_cases (v : float) :
  is_finite v = true ->
  (exists s, Prim2SF v = S754_zero s) \/ (exists s m e, Prim2SF v = S754_finite s m e).
Proof.
  unfold is_finite, is_nan, is_infinity. rewrite !FloatAxioms.eqb_spec, FloatAxioms.abs_spec.
  destruct (Prim2SF v) as [s|s| |s m e] eqn:Hv; eauto.
  - destruct s; vm_compute; discriminate.
  - vm_compute. discriminate.
Qed.

(** A finite number minus itself is zero. *)
Lemma sub_diag_finite (v : float) : is_finite v = true -> v - v = 0.
Proof.
  intros Hfin. apply FloatAxioms.Prim2SF_inj. rewrite FloatAxioms.sub_spec.
  change (Prim2SF 0) with (S754_zero false).
  destruct (finite_cases v Hfin) as [[s ->]|(s & m & e & ->)].
  - by destruct s.
  - unfold SF64sub, SFsub. rewrite Z.min_id, Z.sub_diag. reflexivity.
Qed.

Lemma minimum_diag (v : float) : Float64.minimum v v = v.
Proof. unfold Float64.minimum. by destruct (is_nan v), (v <? v). Qed.

Lemma maximum_diag (v : float) : Float64.maximum v v = v.
Proof. unfold Float64.maximum. by destruct (is_nan v), (v <? v). Qed.

Lemma foldl_minimum_replicate (v : float) (n : nat) :
  foldl Float64.minimum v (replicate n v) = v.
Proof. induction n as [|n IH]; simpl; [done|]. by rewrite minimum_diag. Qed.

Lemma foldl_maximum_replicate (v : float) (n : nat) :
  foldl Float64.maximum v (replicate n v) = v.
Proof. induction n as [|n IH]; simpl; [done|]. by rewrite maximum_diag. Qed.

Lemma np_min_replicate (v : float) (n : nat) :
  Float64.np_min (replicate (S n) v) = Return v.
Proof. simpl. by rewrite foldl_minimum_replicate. Qed.

Lemma np_max_replicate (v : float) (n : nat) :
  Float64.np_max (replicate (S n) v) = Return v.
Proof. simpl. by rewrite foldl_maximum_replicate. Qed.

Lemma scaled_replicate (v d : float) (n : nat) :
  is_finite v = true ->
  map (fun x => (x - v) / d) (replicate n v) = replicate n (0 / d).
Proof.
  intros Hfin. induction n as [|n IH]; [done|].
  cbn [replicate map]. by rewrite IH, sub_diag_finite.
Qed.

End Binary64.

(** C4. On IEEE binary64 numbers.  [normalize_data] raises on no series
    that has a value, and returns one scaled value per element.  The half
    of the claim on constant series holds: a series that repeats one finite
    value is scaled to zeros.  The half on the range fails: the series
    [-2^1023, 2^1023] is finite and its maximum exceeds its minimum, yet
    [max - min] overflows to infinity and the value scaled from the maximum
    is [inf / inf], that is nan, which is not in [0, 1]. *)
Theorem normalize_data_float64 :
  (forall data : list float,
     data <> [] ->
     exists normalized min_val max_val,
       Float64.normalize_data data = Return (normalized, min_val, max_val) /\
       length normalized = length data) /\
  (forall (v : float) (n : nat),
     is_finite v = true ->
     Float64.normalize_data (replicate (S n) v)
     = Return (replicate (S n) 0%float, v, v)) /\
  (let data := [(-0x1p1023)%float; 0x1p1023%float] in
   forallb is_finite data = true /\
   ((-0x1p1023) <? 0x1p1023)%float = true /\
   Float64.normalize_data data
   = Return ([0%float; nan], (-0x1p1023)%float, 0x1p1023%float) /\
   Float64.in_unit_range nan = false).
Proof.
  split; [|split].
  - intros [|x rest] Hne; [done|]. eexists _, _, _.
    split; [reflexivity|]. apply length_map.
  - intros v n Hfin. unfold Float64.normalize_data.
    rewrite np_min_replicate, np_max_replicate. cbn [obind].
    rewrite scaled_replicate, sub_diag_finite by done.
    reflexivity.
  - repeat split; vm_compute; reflexivity.
Qed.

Lemma normalize_data_float64_witness :
  Float64.normalize_data [7%float; 7%float; 7%float]
  = Return ([0%float; 0%float; 0%float], 7%float, 7%float).
Proof.
  destruct normalize_data_float64 as (_ & Hconst & _).
  apply (Hconst 7%float 2%nat). vm_compute. reflexivity.
Defined.

(** On the empty series [np.min] raises, and so does [normalize_data]. *)
Lemma normalize_data_empty :
  exists e, DatasetLoader.normalize_data [] = Raise e.
Proof. eexists. reflexivity. Qed.

(** ** The model object (model.py) *)

Section ModelProperties.
Context {obj cell bytes : Type} `{L : Lib obj cell bytes}.
Implicit Types (s : MState (obj:=obj) (bytes:=bytes)) (data : array_like).

Lemma with_scaler_same (m : AnomalyDetectionModel (obj:=obj)) :
  with_scaler (scaler m) m = m.
Proof. by destruct m. Qed.

Lemma with_model_same (m : AnomalyDetectionModel (obj:=obj)) o :
  model m = Some o -> with_model (Some o) m = m.
Proof. destruct m; simpl. by intros ->. Qed.

(** With a model object in memory the scoring steps read the scaler and
    the model and change nothing. *)
Lemma predict_body_pure s data m :
  model (self s) = Some m ->
  predict_body data s = (score_with (scaler (self s)) m data, s).
Proof.
  intros Hm. destruct s as [me w]. simpl in Hm.
  unfold predict_body, score_with, bind, call_scaler, call_model, ret. simpl.
  rewrite with_scaler_same.
  destruct (transform (scaler me) (as_2d data)) as [scaled|e]; simpl; [|done].
  rewrite Hm. simpl. rewrite (with_model_same me m Hm).
  destruct (score_samples m scaled) as [raw|e]; simpl; [|done].
  rewrite (with_model_same me m Hm).
  by destruct (predict_samples m scaled) as [ps|e].
Qed.

(** [predict] on an instance that holds a model object: the guard, then
    the scoring; the instance and the world stay as they were. *)
Lemma predict_with_model s data m :
  model (self s) = Some m ->
  predict data s =
    (if negb (is_trained (self s)) &&
        negb (bool_decide (is_Some (files (world s) !! model_path (self s))))
     then Raise (ValueError not_trained_msg)
     else prediction_error (score_with (scaler (self s)) m data), s).
Proof.
  intros Hm. unfold predict, bind, get. simpl.
  destruct (is_trained (self s)); simpl.
  - rewrite Hm. unfold ret, try_except. simpl.
    rewrite (predict_body_pure s data m Hm).
    by destruct (score_with _ _ _).
  - unfold in_world, os_path_exists, gets, ret. simpl.
    destruct s as [me w]; simpl in *.
    destruct (bool_decide _); simpl; [|done].
    rewrite Hm. unfold try_except.
    rewrite (predict_body_pure (MkMState me w) data m Hm).
    by destruct (score_with _ _ _).
Qed.

Lemma predict_keeps_state s data m :
  model (self s) = Some m -> snd (predict data s) = s.
Proof. intros Hm. by rewrite (predict_with_model s data m Hm). Qed.

Lemma after_predicts_same s m inputs :
  model (self s) = Some m -> after_predicts inputs s = s.
Proof.
  intros Hm. induction inputs as [|d rest IH]; simpl; [done|].
  by rewrite (predict_keeps_state s d m Hm).
Qed.

(** The run of [train] in which every step succeeds. *)
Lemma train_body_success s data c scaled sc forest raw mx mn :
  fit_transform (scaler (self s)) (as_2d data) = (Return scaled, sc) ->
  fit (IsolationForest c 42 100) scaled = (Return tt, forest) ->
  write_error (world s) (model_path (self s)) = None ->
  write_error (written (model_path (self s)) forest (world s))
              (scaler_path (self s)) = None ->
  score_samples forest scaled = Return raw ->
  Np.max (map Qopp raw) = Return mx ->
  Np.min (map Qopp raw) = Return mn ->
  train_body data c s =
    (Return (TrainSuccess "Model trained successfully" (length (as_2d data))
                          (Np.mean (map Qopp raw)) mx mn (clock (world s))),
     MkMState
       (MkModel (model_path (self s)) (scaler_path (self s)) sc (Some forest)
                true (threshold (self s)))
       (written (scaler_path (self s)) sc
          (written (model_path (self s)) forest (world s)))).
Proof.
  intros Hft Hfit Hw1 Hw2 Hsc Hmx Hmn. destruct s as [me w]. simpl in *.
  unfold train_body, bind, call_scaler, call_model, on_self, modify, get,
    in_world, joblib_dump, lift, now_isoformat, gets, ret.
  simpl. rewrite Hft. simpl. rewrite Hfit. simpl.
  rewrite Hw1. simpl. rewrite Hw2. simpl. rewrite Hsc. simpl.
  rewrite Hmx, Hmn. reflexivity.
Qed.

(** Conversely, the [try] block returns only through that run. *)
Lemma train_body_inv s data c report s1 :
  train_body data c s = (Return report, s1) ->
  exists scaled sc forest raw mx mn,
    fit_transform (scaler (self s)) (as_2d data) = (Return scaled, sc) /\
    fit (IsolationForest c 42 100) scaled = (Return tt, forest) /\
    write_error (world s) (model_path (self s)) = None /\
    write_error (written (model_path (self s)) forest (world s))
                (scaler_path (self s)) = None /\
    score_samples forest scaled = Return raw /\
    Np.max (map Qopp raw) = Return mx /\
    Np.min (map Qopp raw) = Return mn.
Proof.
  destruct s as [me w]. simpl.
  unfold train_body, bind, call_scaler, call_model, on_self, modify, get,
    in_world, joblib_dump, lift, now_isoformat, gets, ret.
  simpl.
  destruct (fit_transform (scaler me) (as_2d data)) as [[scaled|e] sc];
    simpl; [|done].
  destruct (fit (IsolationForest c 42 100) scaled) as [[[]|e] forest] eqn:Hfit;
    simpl; [|done].
  destruct (write_error w (model_path me)) as [e|] eqn:Hw1; simpl; [done|].
  destruct (write_error (written (model_path me) forest w) (scaler_path me))
    as [e|] eqn:Hw2; simpl; [done|].
  destruct (score_samples forest scaled) as [raw|e] eqn:Hsc; simpl; [|done].
  destruct (Np.max (map Qopp raw)) as [mx|e] eqn:Hmx; simpl; [|done].
  destruct (Np.min (map Qopp raw)) as [mn|e] eqn:Hmn; simpl; [|done].
  intros _. by exists scaled, sc, forest, raw, mx, mn.
Qed.

(** A success report comes from a completed [try] block. *)
Lemma train_success_inv s data c report s1 :
  train data c s = (Return report, s1) ->
  train_status report = "success" ->
  train_body data c s = (Return report, s1).
Proof.
  unfold train, try_except.
  destruct (train_body data c s) as [[r|e] s']; [done|].
  unfold bind, in_world, now_isoformat, gets, ret. simpl.
  intros [= <- <-]. done.
Qed.

Lemma as_2d_length data : length (as_2d data) = Np.len (np_array data).
Proof.
  unfold as_2d. destruct (np_array data) as [xs|rows]; simpl; [|done].
  unfold Np.reshape_col. by rewrite length_map.
Qed.

(** C5. [train] always returns a report.  When every step succeeds the
    instance is marked trained and holds the fitted scaler and forest, both
    are written to their files, and the report is the success report with
    the number of input samples, the mean, greatest and least score and the
    time.  When a step of the [try] block raises, the report is the error
    report with the exception's message. *)
Theorem train_reports s data c :
  (exists report s', train data c s = (Return report, s')) /\
  (forall scaled sc forest raw mx mn,
     fit_transform (scaler (self s)) (as_2d data) = (Return scaled, sc) ->
     fit (IsolationForest c 42 100) scaled = (Return tt, forest) ->
     write_error (world s) (model_path (self s)) = None ->
     write_error (written (model_path (self s)) forest (world s))
                 (scaler_path (self s)) = None ->
     score_samples forest scaled = Return raw ->
     Np.max (map Qopp raw) = Return mx ->
     Np.min (map Qopp raw) = Return mn ->
     exists s',
       train data c s =
         (Return (TrainSuccess "Model trained successfully"
                    (Np.len (np_array data))
                    (Np.mean (map Qopp raw)) mx mn (clock (world s))), s') /\
       is_trained (self s') = true /\
       scaler (self s') = sc /\
       model (self s') = Some forest /\
       files (world s') =
         <[scaler_path (self s) := pickle_dumps sc]>
           (<[model_path (self s) := pickle_dumps forest]> (files (world s)))) /\
  (forall e s', train_body data c s = (Raise e, s') ->
     train data c s = (Return (TrainError (exc_str e) (clock (world s'))), s')).
Proof.
  split; [|split].
  - unfold train, try_except.
    destruct (train_body data c s) as [[report|e] s']; [by eauto|].
    unfold bind, in_world, now_isoformat, gets, ret. simpl. eauto.
  - intros scaled sc forest raw mx mn Hft Hfit Hw1 Hw2 Hsc Hmx Hmn.
    eexists. unfold train, try_except.
    rewrite (train_body_success s data c scaled sc forest raw mx mn) by done.
    rewrite as_2d_length. simpl. done.
  - intros e s' Hbody. unfold train, try_except. rewrite Hbody.
    unfold bind, in_world, now_isoformat, gets, ret. simpl.
    by destruct s'.
Qed.

Lemma series_result_keeps_state s d m :
  model (self s) = Some m -> snd (series_result d s) = s.
Proof.
  intros Hm. unfold series_result, bind.
  rewrite (predict_with_model s _ m Hm).
  destruct (if _ : bool then _ else _) as [[sc lb]|e]; simpl; [|done].
  unfold lift, ret. by destruct (py_max lb).
Qed.

Lemma predict_batch_keeps_state s data_list m :
  model (self s) = Some m -> snd (predict_batch data_list s) = s.
Proof.
  intros Hm.
  assert (Hloop : forall l i results, snd (predict_batch_loop i l results s) = s).
  { induction l as [|d rest IH]; intros i results; simpl; [done|].
    unfold bind. pose proof (series_result_keeps_state s d m Hm) as Hd.
    destruct (series_result d s) as [[entry|e] s1]; simpl in Hd; subst s1;
      [apply IH|done]. }
  unfold predict_batch, try_except, bind. specialize (Hloop data_list 0%nat ∅).
  destruct (predict_batch_loop 0 data_list ∅ s) as [[results|e] s1];
    simpl in Hloop; subst s1;
    unfold in_world, now_isoformat, gets, ret; simpl; by destruct s.
Qed.

(** C1. [predict] never fits the scaler: it leaves the scaler as it is, or
    (on an instance without a model object) replaces it by the one read
    from the scaler file.  After a [train] that reported success the scaler
    is the one [fit_transform] produced in that call; any number of
    [predict] calls leave the instance and the world unchanged, each of
    them scores its input with [transform] of that same scaler, and a
    [predict_batch] changes nothing either. *)
Theorem scaler_fitted_only_by_train :
  (forall s data,
     scaler (self (snd (predict data s))) = scaler (self s) \/
     exists b, files (world s) !! scaler_path (self s) = Some b /\
               pickle_loads b = Return (scaler (self (snd (predict data s))))) /\
  (forall s data c report s1,
     train data c s = (Return report, s1) ->
     train_status report = "success" ->
     scaler (self s1) = snd (fit_transform (scaler (self s)) (as_2d data)) /\
     exists forest, model (self s1) = Some forest /\
       forall inputs,
         after_predicts inputs s1 = s1 /\
         scaler (self (after_predicts inputs s1)) = scaler (self s1) /\
         (forall d, predict d (after_predicts inputs s1) =
                    (prediction_error (score_with (scaler (self s1)) forest d), s1)) /\
         forall data_list,
           snd (predict_batch data_list (after_predicts inputs s1)) = s1).
Proof.
  split.
  - intros s data. destruct (model (self s)) as [m|] eqn:Hm.
    { left. by rewrite (predict_keeps_state s data m Hm). }
    destruct s as [me w]. simpl in Hm.
    unfold predict, bind, get, in_world, os_path_exists, joblib_load, on_self,
      modify, gets, ret, raise, try_except.
    simpl. rewrite Hm.
    destruct (is_trained me); simpl.
    + destruct (files w !! model_path me) as [bm|]; simpl; [|by left].
      destruct (pickle_loads bm) as [m|e]; simpl; [|by left].
      destruct (files w !! scaler_path me) as [bs|] eqn:Hbs; simpl; [|by left].
      destruct (pickle_loads bs) as [sc|e] eqn:Hsc; simpl; [|by left].
      right. exists bs. split; [done|].
      rewrite (predict_body_pure _ data m) by done.
      by destruct (score_with _ _ _).
    + destruct (bool_decide _); simpl; [|by left].
      destruct (files w !! model_path me) as [bm|]; simpl; [|by left].
      destruct (pickle_loads bm) as [m|e]; simpl; [|by left].
      destruct (files w !! scaler_path me) as [bs|] eqn:Hbs; simpl; [|by left].
      destruct (pickle_loads bs) as [sc|e] eqn:Hsc; simpl; [|by left].
      right. exists bs. split; [done|].
      rewrite (predict_body_pure _ data m) by done.
      by destruct (score_with _ _ _).
  - intros s data c report s1 Hrun Hok.
    pose proof (train_success_inv s data c report s1 Hrun Hok) as Hbody.
    destruct (train_body_inv s data c report s1 Hbody)
      as (scaled & sc & forest & raw & mx & mn & Hft & Hfit & Hw1 & Hw2 & Hsc & Hmx & Hmn).
    rewrite (train_body_success s data c scaled sc forest raw mx mn) in Hbody
      by done.
    injection Hbody as _ <-. simpl. rewrite Hft. split; [done|].
    exists forest. split; [done|]. intros inputs.
    rewrite (after_predicts_same _ forest) by done.
    split; [done|]. split; [done|]. split.
    + intros d. by rewrite (predict_with_model _ d forest).
    + intros data_list. by apply (predict_batch_keeps_state _ _ forest).
Qed.

Lemma prediction_error_not_guard {A} (o : outcome A) :
  prediction_error o <> Raise (ValueError not_trained_msg).
Proof. destruct o as [a|e]; simpl; [done|]. intros [= H]. Qed.

(** [predict] on an instance without a model object, once its guard lets
    it through: the model file is read, then the scaler file. *)
Lemma predict_lazy_load (me : AnomalyDetectionModel (obj:=obj)) w data :
  model me = None ->
  is_trained me = true \/ is_Some (files w !! model_path me) ->
  predict data (MkMState me w) =
    match files w !! model_path me with
    | None => (Raise (FileNotFoundError (model_path me)), MkMState me w)
    | Some bm =>
        match pickle_loads bm with
        | Raise e => (Raise e, MkMState me w)
        | Return m =>
            let me1 := with_model (Some m) me in
            match files w !! scaler_path me with
            | None => (Raise (FileNotFoundError (scaler_path me)), MkMState me1 w)
            | Some bs =>
                match pickle_loads bs with
                | Raise e => (Raise e, MkMState me1 w)
                | Return sc =>
                    (prediction_error (score_with sc m data),
                     MkMState (with_scaler sc me1) w)
                end
            end
        end
    end.
Proof.
  intros Hm Hguard.
  unfold predict, bind, get, in_world, os_path_exists, joblib_load, on_self,
    modify, gets, ret, raise, try_except.
  simpl. rewrite Hm.
  assert (Hpass : (if is_trained me then (Return false, MkMState me w)
                   else (Return (negb (bool_decide (is_Some (files w !! model_path me)))),
                         MkMState me w))
                  = (Return false, MkMState me w)).
  { destruct (is_trained me); [done|]. destruct Hguard as [?|Hex]; [done|].
    by rewrite bool_decide_eq_true_2. }
  destruct (is_trained me); simpl.
  - destruct (files w !! model_path me) as [bm|]; simpl; [|done].
    destruct (pickle_loads bm) as [m|e]; simpl; [|done].
    destruct (files w !! scaler_path me) as [bs|]; simpl; [|done].
    destruct (pickle_loads bs) as [sc|e]; simpl; [|done].
    rewrite (predict_body_pure _ data m) by done. simpl.
    by destruct (score_with _ _ _).
  - injection Hpass as ->. simpl.
    destruct (files w !! model_path me) as [bm|]; simpl; [|done].
    destruct (pickle_loads bm) as [m|e]; simpl; [|done].
    destruct (files w !! scaler_path me) as [bs|]; simpl; [|done].
    destruct (pickle_loads bs) as [sc|e]; simpl; [|done].
    rewrite (predict_body_pure _ data m) by done. simpl.
    by destruct (score_with _ _ _).
Qed.

(** C6. On a freshly constructed instance, [predict] raises the
    not-trained [ValueError] when there is no file at the model path, and
    changes nothing.  When the model file and the scaler file are there and
    load, it reads both into the instance and goes on to score with them:
    the outcome is that of the scoring, not the not-trained error. *)
Theorem predict_on_fresh_instance mp sp w0 me w1 w data :
  init mp sp w0 = (Return me, w1) ->
  (files w !! mp = None ->
     predict data (MkMState me w) =
       (Raise (ValueError not_trained_msg), MkMState me w)) /\
  (forall bm bs m sc,
     files w !! mp = Some bm -> pickle_loads bm = Return m ->
     files w !! sp = Some bs -> pickle_loads bs = Return sc ->
     predict data (MkMState me w) =
       (prediction_error (score_with sc m data),
        MkMState (MkModel mp sp sc (Some m) false (1 # 2)) w) /\
     fst (predict data (MkMState me w)) <> Raise (ValueError not_trained_msg)).
Proof.
  intros Hinit.
  assert (Hme : me = MkModel mp sp StandardScaler None false (1 # 2)).
  { unfold init, bind, os_makedirs, ret in Hinit.
    destruct (mkdir_error w0 (dirname mp)); [done|]. by injection Hinit as <- _. }
  subst me. split.
  - intros Hnone.
    unfold predict, bind, get, in_world, os_path_exists, gets, ret, raise.
    simpl. rewrite Hnone. rewrite bool_decide_eq_false_2; [done|].
    by intros [? ?].
  - intros bm bs m sc Hbm Hm Hbs Hsc.
    rewrite predict_lazy_load; simpl; [|done|right; by rewrite Hbm].
    rewrite Hbm, Hm, Hbs, Hsc. split; [done|]. simpl.
    apply prediction_error_not_guard.
Qed.

(** C9, as the code has it.  The guard of [predict] looks at the model
    file only.  On an instance that is not trained and holds no model
    object, with a file at the model path and none at the scaler path,
    [predict] does not raise the not-trained error: it reads the model
    file and, if that loads, keeps the loaded model and raises the
    [FileNotFoundError] of the missing scaler file; if the model file does
    not load, it raises that load error. *)
Theorem predict_guard_ignores_scaler_file
    (me : AnomalyDetectionModel (obj:=obj)) w data bm :
  is_trained me = false ->
  model me = None ->
  files w !! model_path me = Some bm ->
  files w !! scaler_path me = None ->
  (forall m, pickle_loads bm = Return m ->
     predict data (MkMState me w) =
       (Raise (FileNotFoundError (scaler_path me)),
        MkMState (with_model (Some m) me) w)) /\
  (forall e, pickle_loads bm = Raise e ->
     predict data (MkMState me w) = (Raise e, MkMState me w)) /\
  (exists e, fst (predict data (MkMState me w)) = Raise e /\
     (e = FileNotFoundError (scaler_path me) \/ pickle_loads bm = Raise e)).
Proof.
  intros Htr Hm Hbm Hbs.
  rewrite predict_lazy_load; [|done|right; by rewrite Hbm].
  rewrite Hbm, Hbs.
  destruct (pickle_loads bm) as [m|e]; simpl.
  - split; [by intros ? [= <-]|]. split; [done|]. eauto.
  - split; [done|]. split; [by intros ? [= <-]|]. eauto.
Qed.

(** C7, as the code has it.  [set_threshold t] stores [t] exactly when
    [0 <= t <= 1]; otherwise it raises a [ValueError] and changes nothing.
    [train] makes no range check of its own: for every contamination it
    returns a report, having first refitted the scaler on the data, and,
    when that fit returns, having replaced the model object by a forest
    built from the contamination it was given. *)
Theorem range_checks :
  (forall s t,
     ((0 <= t <= 1)%Q ->
        set_threshold t s =
          (Return tt, MkMState (with_threshold t (self s)) (world s))) /\
     (~ (0 <= t <= 1)%Q ->
        set_threshold t s =
          (Raise (ValueError "Threshold must be between 0 and 1"), s))) /\
  (forall s data c,
     exists report s',
       train data c s = (Return report, s') /\
       scaler (self s') = snd (fit_transform (scaler (self s)) (as_2d data)) /\
       forall scaled sc,
         fit_transform (scaler (self s)) (as_2d data) = (Return scaled, sc) ->
         model (self s') = Some (snd (fit (IsolationForest c 42 100) scaled))).
Proof.
  split.
  - intros s t. unfold set_threshold, in_unit_interval. split.
    + intros [H0 H1]. apply Qle_bool_iff in H0, H1. by rewrite H0, H1.
    + intros Hout.
      destruct (Qle_bool 0 t) eqn:H0; simpl; [|done].
      destruct (Qle_bool t 1) eqn:H1; simpl; [|done].
      exfalso. apply Hout. split; by apply Qle_bool_iff.
  - intros [me w] data c. simpl.
    unfold train, try_except, train_body, bind, call_scaler, call_model,
      on_self, modify, get, in_world, joblib_dump, lift, now_isoformat,
      gets, ret.
    simpl.
    destruct (fit_transform (scaler me) (as_2d data)) as [[scaled|e] sc];
      simpl; [|eexists _, _; by repeat split].
    assert (Hforest : forall scaled0 sc0 forest,
              (fit (IsolationForest c 42 100) scaled).2 = forest ->
              (Return scaled, sc) = (Return scaled0, sc0) ->
              Some forest = Some (fit (IsolationForest c 42 100) scaled0).2).
    { by intros ? ? ? <- [= <- <-]. }
    destruct (fit (IsolationForest c 42 100) scaled) as [[[]|e] forest];
      simpl; [|solve [eexists _, _; repeat split; simpl; intros; eapply Hforest; [reflexivity|eassumption]]].
    destruct (write_error w (model_path me)) as [e1|]; simpl;
      [solve [eexists _, _; repeat split; simpl; intros; eapply Hforest; [reflexivity|eassumption]]|].
    destruct (write_error (written (model_path me) forest w) (scaler_path me))
      as [e2|]; simpl;
      [solve [eexists _, _; repeat split; simpl; intros; eapply Hforest; [reflexivity|eassumption]]|].
    destruct (score_samples forest scaled) as [raw|e3]; simpl;
      [|solve [eexists _, _; repeat split; simpl; intros; eapply Hforest; [reflexivity|eassumption]]].
    destruct (Np.max (map Qopp raw)) as [mx|e4]; simpl;
      [|solve [eexists _, _; repeat split; simpl; intros; eapply Hforest; [reflexivity|eassumption]]].
    destruct (Np.min (map Qopp raw)) as [mn|e5]; simpl;
      solve [eexists _, _; repeat split; simpl; intros; eapply Hforest; [reflexivity|eassumption]].
Qed.

(** *** Batches *)

Lemma sequence_key_inj i j : sequence_key i = sequence_key j -> i = j.
Proof.
  unfold sequence_key. intros H. apply String.app_inj in H.
  by apply (inj pretty) in H.
Qed.

Lemma store_results_other entries i results k :
  (forall j, (i <= j)%nat -> k <> sequence_key j) ->
  store_results i entries results !! k = results !! k.
Proof.
  revert i results. induction entries as [|entry rest IH]; intros i results Hk;
    simpl; [done|].
  rewrite IH by (intros j Hj; apply Hk; lia).
  apply lookup_insert_ne. intros Heq. by apply (Hk i).
Qed.

Lemma store_results_lookup entries i results j :
  store_results i entries results !! sequence_key (i + j) =
    match entries !! j with
    | Some entry => Some entry
    | None => results !! sequence_key (i + j)
    end.
Proof.
  revert i results j. induction entries as [|entry rest IH]; intros i results j;
    simpl; [done|].
  destruct j as [|j]; simpl.
  - rewrite Nat.add_0_r. rewrite store_results_other.
    + apply lookup_insert_eq.
    + intros k Hk Heq. apply sequence_key_inj in Heq. lia.
  - replace (i + S j)%nat with (S i + j)%nat by lia. rewrite IH.
    destruct (rest !! j); [done|].
    apply lookup_insert_ne. intros Heq. apply sequence_key_inj in Heq. lia.
Qed.

(** The loop stores the entries of the series, provided computing them
    all returns; otherwise it raises what the first failing series raised. *)
Lemma predict_batch_loop_each data_list i results s :
  predict_batch_loop i data_list results s =
    match each_series data_list s with
    | (Return entries, s') => (Return (store_results i entries results), s')
    | (Raise e, s') => (Raise e, s')
    end.
Proof.
  revert i results s. induction data_list as [|d rest IH]; intros i results s;
    simpl; [done|].
  unfold bind. destruct (series_result d s) as [[entry|e] s1]; [|done].
  rewrite IH. by destruct (each_series rest s1) as [[entries|e] s2].
Qed.

Lemma each_series_failing pre d post s entries s_i e s' :
  each_series pre s = (Return entries, s_i) ->
  series_result d s_i = (Raise e, s') ->
  each_series (pre ++ d :: post) s = (Raise e, s').
Proof.
  revert s entries. induction pre as [|d0 pre IH]; intros s entries Hpre Hd;
    simpl in *.
  - injection Hpre as _ <-. unfold bind. by rewrite Hd.
  - unfold bind in *. destruct (series_result d0 s) as [[entry|e0] s1]; [|done].
    destruct (each_series pre s1) as [[entries1|e1] s2] eqn:Hrest; [|done].
    injection Hpre as _ <-. by rewrite (IH s1 entries1).
Qed.

Lemma each_series_length data_list s entries s' :
  each_series data_list s = (Return entries, s') ->
  length entries = length data_list.
Proof.
  revert s entries s'.
  induction data_list as [|d rest IH]; intros s entries s' Hall; simpl in *.
  - unfold ret in Hall. by injection Hall as <- _.
  - unfold bind, ret in Hall.
    destruct (series_result d s) as [[entry|e] s1]; [|done].
    destruct (each_series rest s1) as [[entries1|e1] s2] eqn:Hrest; [|done].
    injection Hall as <- _. simpl. f_equal. by eapply IH.
Qed.

(** C2, as the code has it.  [predict_batch] always returns a report.  The
    whole loop sits in one [try]: when the series before some series all
    yield their entries and that series raises (in [predict], or in
    [max(labels)]), the report is the error report with that exception's
    message and nothing else, whatever the later series are, and the state
    is the one that failing call left.  When every series yields its entry
    the report is the success report, with entry [i] under the key
    [sequence_i] and no other key. *)
Theorem predict_batch_single_try s :
  (forall data_list,
     exists report s', predict_batch data_list s = (Return report, s')) /\
  (forall d s0 e s',
     predict (NdArray (Np.Arr1 d)) s0 = (Raise e, s') ->
     series_result d s0 = (Raise e, s')) /\
  (forall pre d post entries s_i e s',
     each_series pre s = (Return entries, s_i) ->
     series_result d s_i = (Raise e, s') ->
     predict_batch (pre ++ d :: post) s =
       (Return (BatchError (exc_str e) (clock (world s'))), s')) /\
  (forall data_list entries s',
     each_series data_list s = (Return entries, s') ->
     exists results,
       predict_batch data_list s =
         (Return (BatchSuccess results (clock (world s'))), s') /\
       length entries = length data_list /\
       forall i, results !! sequence_key i = entries !! i).
Proof.
  split; [|split; [|split]].
  - intros data_list. unfold predict_batch, try_except, bind.
    rewrite predict_batch_loop_each.
    destruct (each_series data_list s) as [[entries|e] s1];
      unfold in_world, now_isoformat, gets, ret; simpl; eauto.
  - intros d s0 e s' Hraise. unfold series_result, bind. by rewrite Hraise.
  - intros pre d post entries s_i e s' Hpre Hd.
    unfold predict_batch, try_except, bind.
    rewrite predict_batch_loop_each.
    rewrite (each_series_failing pre d post s entries s_i e s' Hpre Hd).
    unfold in_world, now_isoformat, gets, ret. simpl. by destruct s'.
  - intros data_list entries s' Hall.
    exists (store_results 0 entries ∅).
    unfold predict_batch, try_except, bind.
    rewrite predict_batch_loop_each, Hall.
    unfold in_world, now_isoformat, gets, ret. simpl.
    split; [by destruct s'|]. split.
    + by eapply each_series_length.
    + intros i. pose proof (store_results_lookup entries 0 ∅ i) as Hi.
      simpl in Hi. rewrite Hi. by destruct (entries !! i).
Qed.

End ModelProperties.

Lemma train_reports_witness :
  exists mean mx mn ts s',
    train (PyList (Toy.ramp 100)) (1 # 10) Toy.fresh =
      (Return (TrainSuccess "Model trained successfully" 100 mean mx mn ts), s') /\
    is_trained (self s') = true.
Proof.
  destruct (train_reports Toy.fresh (PyList (Toy.ramp 100)) (1 # 10))
    as (_ & Hsuccess & _).
  edestruct Hsuccess as (s' & Hrun & Htrained & _);
    [reflexivity | reflexivity | reflexivity | reflexivity
    | reflexivity | reflexivity | reflexivity |].
  do 4 eexists. exists s'. split; [exact Hrun | exact Htrained].
Defined.

Lemma scaler_fitted_only_by_train_witness :
  let s1 := snd (train (PyList (Toy.ramp 5)) (1 # 10) Toy.fresh) in
  scaler (self s1) = Toy.ScalerFitted 3 /\
  after_predicts [PyList [3; 1000]%Q; PyList [7]%Q] s1 = s1.
Proof.
  destruct (@scaler_fitted_only_by_train _ Toy.toy_cell _ Toy.toy_lib) as [_ Htrain].
  destruct (Htrain Toy.fresh (PyList (Toy.ramp 5)) (1 # 10) _ _ eq_refl eq_refl)
    as (Hscaler & forest & _ & Hpredicts).
  split; [exact Hscaler|].
  exact (proj1 (Hpredicts [PyList [3; 1000]%Q; PyList [7]%Q])).
Defined.

Lemma fresh_is_constructed :
  init Toy.default_model_path Toy.default_scaler_path Toy.empty_world =
    (Return (self Toy.fresh), world Toy.fresh).
Proof. vm_compute. reflexivity. Defined.

Lemma predict_on_fresh_instance_witness :
  predict (PyList [3]%Q) (MkMState (self Toy.fresh) Toy.empty_world) =
    (Raise (ValueError not_trained_msg), MkMState (self Toy.fresh) Toy.empty_world) /\
  fst (predict (PyList [3; 1000]%Q) (MkMState (self Toy.fresh) Toy.both_files)) =
    Return ([0; 997]%Q, [0; 1]).
Proof.
  split.
  - apply (predict_on_fresh_instance Toy.default_model_path Toy.default_scaler_path
             Toy.empty_world (self Toy.fresh) (world Toy.fresh) Toy.empty_world
             (PyList [3]%Q) fresh_is_constructed).
    reflexivity.
  - destruct (predict_on_fresh_instance Toy.default_model_path
                Toy.default_scaler_path Toy.empty_world (self Toy.fresh)
                (world Toy.fresh) Toy.both_files (PyList [3; 1000]%Q)
                fresh_is_constructed)
      as [_ Hload].
    destruct (Hload (Toy.Pickled (Toy.ForestFitted (1 # 10) (9 # 5)))
                    (Toy.Pickled (Toy.ScalerFitted 3))
                    (Toy.ForestFitted (1 # 10) (9 # 5)) (Toy.ScalerFitted 3)
                    eq_refl eq_refl eq_refl eq_refl) as [Hrun _].
    rewrite Hrun. reflexivity.
Defined.

(** The first [predict] on a fresh instance that finds only the model file
    loads the model and fails on the scaler file.  The instance is still
    not trained, the files are as before, and yet the next [predict] reads
    no file: it scores with the model in memory and the scaler that was
    never fitted, and the error it raises is the prediction error. *)
Lemma predict_second_call_reads_no_file :
  let s0 := MkMState (self Toy.fresh) Toy.model_file_only in
  let s1 := snd (predict (PyList [3]%Q) s0) in
  fst (predict (PyList [3]%Q) s0) = Raise (FileNotFoundError "models/scaler.pkl") /\
  is_trained (self s1) = false /\
  is_Some (files (world s1) !! model_path (self s1)) /\
  files (world s1) !! scaler_path (self s1) = None /\
  predict (PyList [3]%Q) s1 =
    (Raise (ValueError "Error during prediction: This instance is not fitted yet."),
     s1).
Proof.
  simpl. split; [reflexivity|]. split; [reflexivity|].
  split; [by eexists|]. split; reflexivity.
Qed.

Lemma predict_guard_ignores_scaler_file_witness :
  predict (PyList [3]%Q) (MkMState (self Toy.fresh) Toy.model_file_only) =
    (Raise (FileNotFoundError "models/scaler.pkl"),
     MkMState (with_model (Some (Toy.ForestFitted (1 # 10) (9 # 5))) (self Toy.fresh))
              Toy.model_file_only).
Proof.
  destruct (predict_guard_ignores_scaler_file (self Toy.fresh) Toy.model_file_only
              (PyList [3]%Q) (Toy.Pickled (Toy.ForestFitted (1 # 10) (9 # 5)))
              eq_refl eq_refl eq_refl eq_refl) as [Hload _].
  exact (Hload _ eq_refl).
Defined.

(** [train] with contamination 0.9: no exception reaches the caller, and
    by the time the forest turns the value down the scaler has been
    refitted and the model object replaced. *)
Lemma train_contamination_not_checked :
  let r := train (PyList [1; 2; 3]%Q) (9 # 10) Toy.fresh in
  fst r = Return (TrainError
                    "The 'contamination' parameter must be in the range (0.0, 0.5]."
                    "2024-01-01T00:00:00") /\
  scaler (self Toy.fresh) = Toy.ScalerNew /\
  scaler (self (snd r)) = Toy.ScalerFitted 2 /\
  model (self Toy.fresh) = None /\
  model (self (snd r)) = Some (Toy.ForestNew (9 # 10)).
Proof. repeat split; reflexivity. Qed.

Lemma range_checks_witness :
  set_threshold 0 Toy.fresh =
    (Return tt, MkMState (with_threshold 0 (self Toy.fresh)) (world Toy.fresh)) /\
  set_threshold 1 Toy.fresh =
    (Return tt, MkMState (with_threshold 1 (self Toy.fresh)) (world Toy.fresh)) /\
  set_threshold (- (1 # 10)) Toy.fresh =
    (Raise (ValueError "Threshold must be between 0 and 1"), Toy.fresh) /\
  set_threshold (3 # 2) Toy.fresh =
    (Raise (ValueError "Threshold must be between 0 and 1"), Toy.fresh).
Proof.
  destruct (@range_checks _ Toy.toy_cell _ Toy.toy_lib) as [Hthreshold _].
  split; [|split; [|split]].
  - apply (Hthreshold Toy.fresh 0%Q). split; discriminate.
  - apply (Hthreshold Toy.fresh 1%Q). split; discriminate.
  - apply (Hthreshold Toy.fresh (- (1 # 10))%Q). intros [H _]. by apply H.
  - apply (Hthreshold Toy.fresh (3 # 2)%Q). intros [_ H]. by apply H.
Defined.

(** A batch of three series on a trained instance: the first and the third
    score on their own, the second (empty) makes [predict] raise, and the
    report of the batch is the error report, which has no predictions. *)
Lemma predict_batch_drops_completed_results :
  (exists r, predict (NdArray (Np.Arr1 [3]%Q)) Toy.trained = (Return r, Toy.trained)) /\
  (exists e, predict (NdArray (Np.Arr1 [])) Toy.trained = (Raise e, Toy.trained)) /\
  (exists r, predict (NdArray (Np.Arr1 [4]%Q)) Toy.trained = (Return r, Toy.trained)) /\
  exists report,
    fst (predict_batch [[3]; []; [4]]%Q Toy.trained) = Return report /\
    batch_status report = "error" /\
    batch_predictions report = None.
Proof.
  split; [by eexists|]. split; [by eexists|]. split; [by eexists|].
  eexists. split; [reflexivity|]. split; reflexivity.
Qed.

Lemma predict_batch_single_try_witness :
  exists msg ts,
    fst (predict_batch [[3]; []; [4]]%Q Toy.trained) = Return (BatchError msg ts).
Proof.
  destruct (predict_batch_single_try Toy.trained) as (_ & _ & Hfail & _).
  pose proof (Hfail [[3]%Q] [] [[4]%Q] _ _ _ _ eq_refl eq_refl) as Hrun.
  do 2 eexists. exact (f_equal fst Hrun).
Defined.

(** ** The singleton and training from a dataset *)

Section ProcessProperties.
Context {obj cell bytes : Type} `{L : Lib obj cell bytes}.
Implicit Types (p : Process (obj:=obj) (bytes:=bytes)).

(** [get_model] leaves the files alone, and what it returns is the
    singleton. *)
Lemma get_model_returns p inst q :
  get_model p = (Return inst, q) ->
  model_instance q = Some inst /\ files (pworld q) = files (pworld p) /\
  (forall old, model_instance p = Some old -> inst = old /\ q = p).
Proof.
  unfold get_model. destruct (model_instance p) as [old|] eqn:Hold.
  - intros [= <- <-]. split; [done|]. split; [done|]. by intros ? [= <-].
  - unfold init, bind, os_makedirs, ret.
    destruct (mkdir_error (pworld p) _); simpl; [done|].
    intros [= <- <-]. simpl. by repeat split.
Qed.

Lemma get_model_files p : files (pworld (snd (get_model p))) = files (pworld p).
Proof.
  unfold get_model. destruct (model_instance p) as [old|]; [done|].
  unfold init, bind, os_makedirs, ret.
  by destruct (mkdir_error (pworld p) _).
Qed.

(** [train_lstm_model] touches the world only by printing. *)
Lemma train_lstm_model_world sequences epochs batch_size (w : World bytes) r w' :
  train_lstm_model sequences epochs batch_size w = (r, w') ->
  files w' = files w /\ dirs w' = dirs w /\ clock w' = clock w /\
  exists lines, stdout w' = stdout w ++ lines.
Proof.
  unfold train_lstm_model, fit_verbose, bind, lift.
  destruct (shape1 sequences) as [n|e]; simpl.
  2:{ intros [= <- <-]. repeat split. exists []. by rewrite app_nil_r. }
  destruct (build_lstm_model n 1) as [m|e]; simpl.
  2:{ intros [= <- <-]. repeat split. exists []. by rewrite app_nil_r. }
  destruct (keras_fit m _ _ epochs batch_size (1 # 5)) as [fitted m'].
  unfold print_lines, modify, ret, bind, lift. simpl.
  destruct fitted; intros [= <- <-]; simpl; repeat split; by eexists.
Qed.

(** Every run of the [try] statement of [train_with_dataset]. *)
Lemma train_with_dataset_cases csv_path p :
  exists b p',
    train_with_dataset_try csv_path p = (Return b, p') /\
    files (pworld p') = files (pworld p) /\
    (b = true <->
     exists content df sequences min_val max_val lstm_model w1 inst q,
       files (pworld p) !! csv_path = Some content /\
       read_csv content = Return df /\
       prepare_data df 30 None = Return (sequences, min_val, max_val) /\
       sequences <> [] /\
       train_lstm_model sequences 50 32 (pworld p) = (Return lstm_model, w1) /\
       get_model (MkProcess (model_instance p) w1) = (Return inst, q) /\
       p' = MkProcess
              (Some (with_is_trained true (with_model (Some lstm_model) inst)))
              (pworld q)).
Proof.
  destruct p as [mi w]. simpl.
  unfold train_with_dataset_try, try_except, bind, in_pworld, load_csv, lift. simpl.
  destruct (files w !! csv_path) as [content|] eqn:Hfile; simpl.
  2:{ unfold print, modify, ret. simpl. eexists _, _. split; [done|].
      split; [done|]. split; [done|].
      by intros (? & ? & ? & ? & ? & ? & ? & ? & ? & ? & _). }
  destruct (read_csv content) as [df|e] eqn:Hread; simpl.
  2:{ unfold print, modify, ret. simpl. eexists _, _. split; [done|].
      split; [done|]. split; [done|].
      intros (? & ? & ? & ? & ? & ? & ? & ? & ? & [= <-] & ? & _). congruence. }
  destruct (prepare_data df 30 None) as [[[sequences min_val] max_val]|e]
    eqn:Hprep; simpl.
  2:{ unfold print, modify, ret. simpl. eexists _, _. split; [done|].
      split; [done|]. split; [done|].
      intros (? & ? & ? & ? & ? & ? & ? & ? & ? & [= <-] & ? & ? & _). congruence. }
  case_bool_decide as Hlen; simpl.
  { unfold print, modify, ret. simpl. eexists _, _. split; [done|].
    split; [done|]. split; [done|].
    intros (? & ? & ? & ? & ? & ? & ? & ? & ? & [= <-] & ? & ? & Hne & _).
    apply length_zero_iff_nil in Hlen. congruence. }
  destruct (train_lstm_model sequences 50 32 w) as [[lstm_model|e] w1] eqn:Htrain;
    simpl;
    destruct (train_lstm_model_world _ _ _ _ _ _ Htrain) as (Hfiles1 & _).
  2:{ unfold print, modify, ret. simpl. eexists _, _. split; [done|].
      split; [done|]. split; [done|].
      intros (? & ? & ? & ? & ? & ? & ? & ? & ? & [= <-] & ? & ? & _ & ? & _).
      congruence. }
  destruct (get_model (MkProcess mi w1)) as [[inst|e] q] eqn:Hget; simpl.
  2:{ unfold print, modify, ret. simpl. eexists _, _. split; [done|].
      split; [by pose proof (get_model_files (MkProcess mi w1)) as Hgf;
                 rewrite Hget in Hgf; simpl in *; rewrite Hgf|].
      split; [done|].
      intros (? & ? & ? & ? & ? & ? & ? & ? & ? & [= <-] & ? & ? & _ & ? & ? & _).
      congruence. }
  destruct (get_model_returns _ inst q Hget) as (Hinst & Hfiles & _).
  unfold on_instance, on_self, modify, ret. rewrite Hinst. simpl.
  eexists _, _. split; [done|].
  split; [simpl in *; by rewrite Hfiles, Hfiles1|]. split; [|done].
  intros _. exists content, df, sequences, min_val, max_val, lstm_model, w1, inst, q.
  repeat split; try done.
  intros ->. by apply Hlen.
Qed.

(** The two imports: when both modules import, the function is its [try]
    statement; when one does not, its exception leaves the function. *)
Lemma train_with_dataset_imported csv_path p :
  import_error "datasets" = None -> import_error "train_lstm_model" = None ->
  train_with_dataset csv_path p = train_with_dataset_try csv_path p.
Proof.
  intros H1 H2. unfold train_with_dataset, import_module, bind.
  by rewrite H1, H2.
Qed.


Lemma train_with_dataset_returned csv_path p b p' :
  train_with_dataset csv_path p = (Return b, p') ->
  train_with_dataset_try csv_path p = (Return b, p').
Proof.
  unfold train_with_dataset, import_module, bind.
  destruct (import_error "datasets"); [done|].
  by destruct (import_error "train_lstm_model").
Qed.


(** [load_model] in a process that starts on the world [w]: the instance
    it returns is read from the two files of [w], or is the untrained
    default when one of them is missing. *)
Lemma load_model_fresh (w : World bytes) inst q :
  load_model (MkProcess None w) = (Return inst, q) ->
  (is_trained inst = true /\
   exists bm bs m sc,
     files w !! "models/anomaly_model.pkl" = Some bm /\
     pickle_loads bm = Return m /\
     files w !! "models/scaler.pkl" = Some bs /\
     pickle_loads bs = Return sc /\
     model inst = Some m /\ scaler inst = sc) \/
  (is_trained inst = false /\ model inst = None /\
   scaler inst = StandardScaler /\
   (files w !! "models/anomaly_model.pkl" = None \/
    files w !! "models/scaler.pkl" = None)).
Proof.
  unfold load_model, get_model, init, os_makedirs, in_pworld,
    os_path_exists, on_instance, in_world, joblib_load, on_self, modify,
    gets, ret, bind.
  simpl.
  destruct (mkdir_error w (dirname "models/anomaly_model.pkl")); simpl; [done|].
  destruct (files w !! "models/anomaly_model.pkl") as [bm|] eqn:Hbm; simpl.
  2:{ intros [= <- <-]. right. simpl. repeat split. by left. }
  destruct (files w !! "models/scaler.pkl") as [bs|] eqn:Hbs; simpl.
  2:{ intros [= <- <-]. right. simpl. repeat split. by right. }
  rewrite ?Hbm, ?Hbs. simpl.
  destruct (pickle_loads bm) as [m|e] eqn:Hm; simpl; [|done].
  rewrite ?Hbs. simpl.
  destruct (pickle_loads bs) as [sc|e] eqn:Hsc; simpl; [|done].
  intros [= <- <-]. left. simpl. split; [done|].
  by exists bm, bs, m, sc.
Qed.

(** C10. A [train_with_dataset] that returned [True] has read the table at
    [csv_path], and the model that [train_lstm_model] returned for the
    windows of that table is now the model of the singleton, which is
    marked trained; the other fields of the singleton are those
    [get_model] gave.  Every file is as it was.  So [load_model] in a new
    process on the same disk returns what the model and scaler files held
    before the training, or the untrained default when one of them was
    missing then. *)
Theorem train_with_dataset_writes_no_file csv_path p p' :
  train_with_dataset csv_path p = (Return true, p') ->
  (exists content df sequences min_val max_val lstm_model w1 inst q trained_inst,
     files (pworld p) !! csv_path = Some content /\
     read_csv content = Return df /\
     prepare_data df 30 None = Return (sequences, min_val, max_val) /\
     train_lstm_model sequences 50 32 (pworld p) = (Return lstm_model, w1) /\
     get_model (MkProcess (model_instance p) w1) = (Return inst, q) /\
     model_instance p' = Some trained_inst /\
     is_trained trained_inst = true /\
     model trained_inst = Some lstm_model /\
     trained_inst = with_is_trained true (with_model (Some lstm_model) inst)) /\
  files (pworld p') = files (pworld p) /\
  (forall inst q,
     load_model (MkProcess None (pworld p')) = (Return inst, q) ->
     (is_trained inst = true /\
      exists bm bs m sc,
        files (pworld p) !! "models/anomaly_model.pkl" = Some bm /\
        pickle_loads bm = Return m /\
        files (pworld p) !! "models/scaler.pkl" = Some bs /\
        pickle_loads bs = Return sc /\
        model inst = Some m /\ scaler inst = sc) \/
     (is_trained inst = false /\ model inst = None /\
      scaler inst = StandardScaler /\
      (files (pworld p) !! "models/anomaly_model.pkl" = None \/
       files (pworld p) !! "models/scaler.pkl" = None))).
Proof.
  intros Hrun. apply train_with_dataset_returned in Hrun.
  destruct (train_with_dataset_cases csv_path p) as (b & p1 & Hrun1 & Hfiles & Htrue).
  rewrite Hrun in Hrun1. injection Hrun1 as <- <-.
  destruct (proj1 Htrue eq_refl)
    as (content & df & sequences & min_val & max_val & lstm_model & w1 & inst & q
        & Hfile & Hread & Hprep & _ & Htrain & Hget & ->).
  split.
  { exists content, df, sequences, min_val, max_val, lstm_model, w1, inst, q.
    eexists. repeat split; try done. }
  split; [done|].
  intros inst' q' Hload. rewrite <- Hfiles. by apply (load_model_fresh _ inst' q').
Qed.

End ProcessProperties.

Lemma toy_dataset_run :
  train_with_dataset "data.csv" (Toy.new_process (Toy.table_world 40)) =
    (Return true,
     snd (train_with_dataset "data.csv" (Toy.new_process (Toy.table_world 40)))).
Proof. vm_compute. reflexivity. Defined.



Lemma train_with_dataset_writes_no_file_witness :
  let p' := snd (train_with_dataset "data.csv" (Toy.new_process (Toy.table_world 40))) in
  files (pworld p') = files (Toy.table_world 40) /\
  exists inst lstm_model,
    model_instance p' = Some inst /\ is_trained inst = true /\
    model inst = Some lstm_model.
Proof.
  destruct (train_with_dataset_writes_no_file "data.csv"
              (Toy.new_process (Toy.table_world 40)) _ toy_dataset_run)
    as (Hsingleton & Hfiles & _).
  split; [exact Hfiles|].
  destruct Hsingleton
    as (_ & _ & _ & _ & _ & lstm_model & _ & _ & _ & inst & _ & _ & _ & _ & _
        & Hinst & Htrained & Hmodel & _).
  by exists inst, lstm_model.
Defined.

(** * Further properties of the code *)

(** ** datasets.py *)

Section DatasetProperties.
Local Open Scope Q_scope.

Lemma normalize_data_inv (data normalized : list Q) (mn mx : Q) :
  DatasetLoader.normalize_data data = Return (normalized, mn, mx) ->
  data <> [] /\ Np.min data = Return mn /\ Np.max data = Return mx /\
  normalized = map (fun v => (v - mn) / (mx - mn + DatasetLoader.eps)) data.
Proof.
  unfold DatasetLoader.normalize_data. destruct data as [|x rest]; [done|].
  simpl. intros [= <- <- <-]. done.
Qed.

Lemma normalize_data_returns (data : list Q) :
  data <> [] ->
  exists normalized mn mx,
    DatasetLoader.normalize_data data = Return (normalized, mn, mx).
Proof.
  destruct data as [|x rest]; [done|]. intros _.
  eexists _, _, _. reflexivity.
Qed.

End DatasetProperties.

Section WindowProperties.

Lemma slice_is_run (data : list Q) (start stop : Z) :
  exists before after, data = before ++ Np.slice data start stop ++ after.
Proof.
  unfold Np.slice.
  set (s := Z.to_nat (Np.slice_bound _ start)).
  set (k := Z.to_nat (_ - _)).
  exists (take s data), (drop k (drop s data)).
  by rewrite take_drop, take_drop.
Qed.

Lemma slice_length (data : list Q) (start stop : Z) :
  let n := Z.of_nat (length data) in
  Z.of_nat (length (Np.slice data start stop))
  = Z.max 0 (Np.slice_bound n stop - Np.slice_bound n start).
Proof.
  intros n. subst n. unfold Np.slice. rewrite length_take, length_drop.
  unfold Np.slice_bound.
  destruct (Z.ltb_spec start 0), (Z.ltb_spec stop 0); lia.
Qed.

Lemma sequences_member (data : list Q) (len : Z) (i : nat) :
  (Z.of_nat i < Z.of_nat (length data) - len + 1) ->
  Np.slice data (Z.of_nat i) (Z.of_nat i + len) ∈ DatasetLoader.sequences data len.
Proof.
  intros Hi. apply list_elem_of_lookup. exists i.
  unfold DatasetLoader.sequences.
  by rewrite list_lookup_fmap, range_lookup by lia.
Qed.

(** X4. [create_sequences] for any integer [seq_length], with [N] the length
    of the series.  What it returns is [N - seq_length + 1] windows (none
    when that is not positive), each a run of consecutive values of the
    series.  It returns when [seq_length] is not negative.  For a negative
    [seq_length] above [-N] the first slice has values and the last has
    none, and [np.array] raises [ValueError]; at [-N] and below every slice
    is empty and the result is [N - seq_length + 1] empty windows. *)
Theorem create_sequences_contiguous (data : list Q) (seq_length : Z) :
  let N := Z.of_nat (length data) in
  (forall windows,
     DatasetLoader.create_sequences data seq_length = Return windows ->
     length windows = Z.to_nat (N - seq_length + 1) /\
     forall w, w ∈ windows -> exists before after, data = before ++ w ++ after) /\
  (0 <= seq_length ->
     exists windows, DatasetLoader.create_sequences data seq_length = Return windows) /\
  (- N < seq_length < 0 ->
     exists msg,
       DatasetLoader.create_sequences data seq_length = Raise (ValueError msg)) /\
  (seq_length <= - N ->
     DatasetLoader.create_sequences data seq_length
     = Return (replicate (Z.to_nat (N - seq_length + 1)) [])).
Proof.
  intros N. split; [|split; [|split]].
  - intros windows Hrun. apply create_sequences_inv in Hrun as ->.
    split; [apply sequences_length|].
    intros w Hw. unfold DatasetLoader.sequences in Hw.
    apply list_elem_of_fmap in Hw as (i & -> & _). apply slice_is_run.
  - intros Hpos. exists (DatasetLoader.sequences data seq_length).
    rewrite <- (Z2Nat.id seq_length) by done. apply create_sequences_returns.
  - intros [Hlow Hneg]. unfold DatasetLoader.create_sequences.
    apply (array_of_rows_ragged _
             (Np.slice data (Z.of_nat 0) (Z.of_nat 0 + seq_length))
             (Np.slice data (Z.of_nat (length data)) (Z.of_nat (length data) + seq_length))).
    + apply sequences_member. lia.
    + apply sequences_member. lia.
    + intros Heq. apply (f_equal Z.of_nat) in Heq.
      rewrite !slice_length in Heq. unfold Np.slice_bound in Heq.
      fold N in Heq. change (Z.of_nat 0) with 0 in Heq.
      destruct (Z.ltb_spec 0 0), (Z.ltb_spec (0 + seq_length) 0),
        (Z.ltb_spec N 0), (Z.ltb_spec (N + seq_length) 0); lia.
  - intros Hlow.
    assert (Hempty : forall w, w ∈ DatasetLoader.sequences data seq_length -> w = []).
    { intros w Hw. apply list_elem_of_lookup in Hw as [i Hi].
      apply sequences_lookup in Hi as [_ ->].
      apply length_zero_iff_nil, Nat2Z.inj. rewrite slice_length.
      unfold Np.slice_bound. fold N.
      destruct (Z.ltb_spec (Z.of_nat i) 0),
        (Z.ltb_spec (Z.of_nat i + seq_length) 0); lia. }
    unfold DatasetLoader.create_sequences.
    rewrite (array_of_rows_uniform _ 0)
      by (intros r Hr; by rewrite (Hempty r Hr)).
    f_equal. subst N. rewrite <- (sequences_length data seq_length).
    symmetry. apply replicate_as_Forall. split; [done|].
    apply Forall_forall. intros r Hr. symmetry. by apply Hempty.
Qed.

(** X5. Each window is the one before it moved on by one position: without
    its first value it is the next window without its last. *)
Theorem create_sequences_slide (data : list Q) (L i : nat)
    (windows : list (list Q)) (w w' : list Q) :
  DatasetLoader.create_sequences data (Z.of_nat L) = Return windows ->
  windows !! i = Some w ->
  windows !! S i = Some w' ->
  drop 1 w = take (L - 1) w'.
Proof.
  intros Hrun Hw Hw'. apply create_sequences_inv in Hrun as ->.
  apply sequences_lookup in Hw as [Hi ->].
  apply sequences_lookup in Hw' as [Hi' ->].
  rewrite Nat2Z.inj_succ in *.
  rewrite slice_inside by lia.
  replace (Z.succ (Z.of_nat i)) with (Z.of_nat (S i)) by lia.
  rewrite slice_inside by lia. rewrite Nat2Z.id.
  apply list_eq. intros j. rewrite lookup_drop.
  destruct (decide (j < L - 1)%nat) as [Hj|Hj].
  - rewrite !lookup_take_lt by lia. rewrite !lookup_drop. f_equal. lia.
  - rewrite lookup_take_ge by lia. by rewrite lookup_take_ge by lia.
Qed.

Lemma create_sequences_slide_witness :
  drop 1 [1; 2; 3]%Q = take (3 - 1) [2; 3; 4]%Q.
Proof.
  exact (create_sequences_slide (Toy.ramp 5) 3 0 _ _ _ eq_refl eq_refl eq_refl).
Defined.

Lemma sequences_by_position (data : list Q) (L : nat) :
  (L <= length data)%nat ->
  DatasetLoader.sequences data (Z.of_nat L)
  = map (fun i => take L (drop i data)) (seq 0 (length data - L + 1)).
Proof.
  intros HL. unfold DatasetLoader.sequences, Np.range.
  rewrite <- list_fmap_compose.
  replace (Z.to_nat (Z.of_nat (length data) - Z.of_nat L + 1))
    with (length data - L + 1)%nat by lia.
  apply list_fmap_ext. intros k i Hi. simpl.
  apply lookup_seq in Hi as [-> Hk].
  rewrite slice_inside by lia. by rewrite Nat2Z.id.
Qed.

Lemma first_values_of_windows (data : list Q) (L a k : nat) :
  (1 <= L)%nat -> (a + k <= length data)%nat ->
  concat (map (fun i => take 1 (take L (drop i data))) (seq a k))
  = take k (drop a data).
Proof.
  intros HL. revert a. induction k as [|k IH]; intros a Hak; simpl.
  - by rewrite take_0.
  - rewrite IH by lia.
    destruct (drop a data) as [|x rest] eqn:Hdrop.
    { apply (f_equal length) in Hdrop. rewrite length_drop in Hdrop.
      simpl in Hdrop. lia. }
    assert (Hrest : drop (S a) data = rest).
    { replace (S a) with (a + 1)%nat by lia.
      rewrite <- drop_drop, Hdrop. reflexivity. }
    rewrite Hrest. destruct L as [|L]; [lia|]. reflexivity.
Qed.

(** X6. The windows hold the whole series when the series is at least one
    window long: the first values of the windows, followed by the rest of
    the last window, are the series. *)
Theorem create_sequences_cover (data : list Q) (L : nat)
    (windows : list (list Q)) (last : list Q) :
  (1 <= L <= length data)%nat ->
  DatasetLoader.create_sequences data (Z.of_nat L) = Return windows ->
  windows !! (length data - L)%nat = Some last ->
  data = concat (map (take 1) windows) ++ drop 1 last.
Proof.
  intros HL Hrun Hlast. apply create_sequences_inv in Hrun as ->.
  rewrite sequences_by_position in * by lia.
  rewrite list_lookup_fmap, lookup_seq_lt in Hlast by lia.
  injection Hlast as <-.
  rewrite <- list_fmap_compose.
  rewrite (first_values_of_windows data L 0) by lia.
  rewrite (take_ge (drop (length data - L) data))
    by (rewrite length_drop; lia).
  rewrite drop_drop, drop_0.
  by rewrite take_drop.
Qed.

Lemma create_sequences_cover_witness :
  Toy.ramp 5 = concat (map (take 1) [[1; 2; 3]; [2; 3; 4]; [3; 4; 5]]%Q)
               ++ drop 1 [3; 4; 5]%Q.
Proof.
  apply (create_sequences_cover (Toy.ramp 5) 3 _ [3; 4; 5]%Q).
  - simpl. lia.
  - reflexivity.
  - reflexivity.
Defined.

End WindowProperties.

(** ** prepare_data and train_lstm_model *)

Section PipelineProperties.
Context {obj cell bytes : Type} `{L : Lib obj cell bytes}.
Implicit Types (df : DataFrame (cell:=cell)).

Lemma omap_length {A B} (f : A -> outcome B) (l : list A) (r : list B) :
  omap f l = Return r -> length r = length l.
Proof.
  revert r. induction l as [|x xs IH]; intros r; simpl.
  - by intros [= <-].
  - destruct (f x) as [y|e]; simpl; [|done].
    destruct (omap f xs) as [ys|e]; simpl; [|done].
    intros [= <-]. simpl. f_equal. by apply IH.
Qed.

Lemma omap_first_failure {A B} (f : A -> outcome B) (pre post : list A)
    (x : A) (done_ : list B) (e : exn) :
  omap f pre = Return done_ -> f x = Raise e ->
  omap f (pre ++ x :: post) = Raise e.
Proof.
  revert done_. induction pre as [|y pre IH]; intros done_; simpl.
  - intros _ ->. reflexivity.
  - destruct (f y) as [z|e0]; simpl; [|done].
    destruct (omap f pre) as [zs|e0]; simpl; [|done].
    intros _ Hx. by rewrite (IH zs).
Qed.

Lemma df_column_missing df (column : string) :
  (forall name values, (name, values) ∈ df -> name <> column) ->
  df_column df column = Raise (KeyError column).
Proof.
  induction df as [|[name values] rest IH]; intros Hnot; simpl; [done|].
  destruct (String.eqb_spec name column) as [->|_].
  - exfalso. by apply (Hnot column values); [apply list_elem_of_here|].
  - apply IH. intros n v Hin. apply (Hnot n v). by apply list_elem_of_further.
Qed.

(** X7. Which column [prepare_data] reads: without a column name it is the
    first column of the table, and a table without columns raises
    [IndexError]; a name that no column has raises [KeyError]. *)
Theorem prepare_data_column df (seq_length : Z) :
  (df = [] ->
     exists msg, prepare_data df seq_length None = Raise (IndexError msg)) /\
  (forall name values rest, df = (name, values) :: rest ->
     prepare_data df seq_length None = prepare_data df seq_length (Some name)) /\
  (forall column,
     (forall name values, (name, values) ∈ df -> name <> column) ->
     prepare_data df seq_length (Some column) = Raise (KeyError column)).
Proof.
  split; [|split].
  - intros ->. eexists. reflexivity.
  - by intros name values rest ->.
  - intros column Hnot. unfold prepare_data. simpl.
    by rewrite (df_column_missing df column Hnot).
Qed.

(** X8. A column that does not convert: [prepare_data] raises what [astype]
    raised on the first cell that fails, and a column without rows raises
    the [ValueError] of [np.min]. *)
Theorem prepare_data_bad_column (name : string) (rest : DataFrame (cell:=cell))
    (seq_length : Z) :
  (forall pre bad post converted e,
     omap astype_float pre = Return converted ->
     astype_float bad = Raise e ->
     prepare_data ((name, pre ++ bad :: post) :: rest) seq_length None = Raise e) /\
  (exists msg,
     prepare_data ((name, []) :: rest) seq_length None = Raise (ValueError msg)).
Proof.
  split.
  - intros pre bad post converted e Hpre Hbad. unfold prepare_data. simpl.
    rewrite String.eqb_refl. simpl.
    by rewrite (omap_first_failure _ pre post bad converted e Hpre Hbad).
  - eexists. unfold prepare_data. simpl. rewrite String.eqb_refl. reflexivity.
Qed.

(** X9. A column of [N >= 1] cells that convert to numbers and a window
    length [W]: [prepare_data] returns (a column shorter than the window is
    not an error), with the least and the greatest number that
    [normalize_data] returned for the column, [N - W + 1] windows, none
    when [W > N]; window [i] is the [W] scaled values from position [i]
    on. *)
Theorem prepare_data_numeric_column (name : string) (values : list cell)
    (rest : DataFrame (cell:=cell)) (data : list Q) (W : nat) :
  omap astype_float values = Return data ->
  values <> [] ->
  exists sequences min_val max_val normalized,
    prepare_data ((name, values) :: rest) (Z.of_nat W) None
      = Return (sequences, min_val, max_val) /\
    DatasetLoader.normalize_data data = Return (normalized, min_val, max_val) /\
    length normalized = length values /\
    length sequences = (length values + 1 - W)%nat /\
    (forall (i : nat) w, sequences !! i = Some w ->
       length w = W /\ w = take W (drop i normalized)).
Proof.
  intros Hconv Hne.
  pose proof (omap_length _ _ _ Hconv) as Hlen.
  assert (Hdata : data <> []).
  { intros ->. destruct values; [done|discriminate]. }
  destruct (normalize_data_returns data Hdata) as (normalized & mn & mx & Hrun).
  destruct (normalize_data_inv _ _ _ _ Hrun) as (_ & _ & _ & Hnorm).
  assert (Hnlen : length normalized = length data).
  { rewrite Hnorm. apply length_map. }
  exists (DatasetLoader.sequences normalized (Z.of_nat W)), mn, mx, normalized.
  split.
  { unfold prepare_data. simpl. rewrite String.eqb_refl. simpl.
    rewrite Hconv. simpl. rewrite Hrun. simpl.
    by rewrite create_sequences_returns. }
  split; [done|]. split; [lia|]. split.
  { rewrite sequences_length. lia. }
  intros i w Hw. apply sequences_lookup in Hw as [Hi ->].
  rewrite slice_inside by lia. rewrite Nat2Z.id. split; [|done].
  rewrite length_take, length_drop. lia.
Qed.

Lemma prepare_data_inv df (seq_length : Z) column sequences min_val max_val :
  prepare_data df seq_length column = Return (sequences, min_val, max_val) ->
  exists data normalized,
    DatasetLoader.normalize_data data = Return (normalized, min_val, max_val) /\
    sequences = DatasetLoader.sequences normalized seq_length.
Proof.
  unfold prepare_data.
  destruct (match column with Some c => Return c | None => _ end) as [c|e];
    simpl; [|done].
  destruct (df_column df c) as [values|e]; simpl; [|done].
  destruct (omap astype_float values) as [data|e]; simpl; [|done].
  destruct (DatasetLoader.normalize_data data) as [[[normalized mn] mx]|e] eqn:Hn;
    simpl; [|done].
  destruct (DatasetLoader.create_sequences normalized seq_length) as [ws|e] eqn:Hws;
    simpl; [|done].
  intros [= <- <- <-]. exists data, normalized. split; [done|].
  by apply create_sequences_inv.
Qed.

Lemma prepared_shape df column sequences min_val max_val :
  prepare_data df 30 column = Return (sequences, min_val, max_val) ->
  sequences <> [] -> shape1 sequences = Return 30.
Proof.
  intros Hprep Hne.
  destruct (prepare_data_inv _ _ _ _ _ _ Hprep) as (data & normalized & _ & ->).
  destruct (DatasetLoader.sequences normalized 30) as [|w rest] eqn:Hws; [done|].
  assert (Hw : DatasetLoader.sequences normalized 30 !! 0%nat = Some w)
    by (by rewrite Hws).
  apply (sequences_lookup normalized 30 0 w) in Hw as [Hlt Hw].
  change 30 with (Z.of_nat 30) in Hw at 1.
  rewrite (slice_inside normalized 0 (Z.of_nat 30)) in Hw by lia.
  simpl. f_equal. rewrite Hw, length_take, length_drop. lia.
Qed.

(** X10. [train_lstm_model] raises [IndexError] when given no window, and
    prints nothing then.  On the windows [prepare_data] made for length 30,
    when there is at least one, the network is built for 30 time steps and
    one feature and is fitted with the windows as input and as target, a
    fifth of them held out for validation; what the fitting prints goes to
    the standard output, whether it returns or raises, and nothing else of
    the world changes. *)
Theorem train_lstm_model_shape (epochs batch_size : Z) (w : World bytes) :
  (exists msg,
     train_lstm_model [] epochs batch_size w = (Raise (IndexError msg), w)) /\
  (forall df column sequences min_val max_val,
     prepare_data df 30 column = Return (sequences, min_val, max_val) ->
     sequences <> [] ->
     train_lstm_model sequences epochs batch_size w =
       match Sequential_compiled 30 1 with
       | Raise e => (Raise e, w)
       | Return model =>
           let X_train := map (map (fun x => [x])) sequences in
           let '(r, model') :=
             keras_fit model X_train X_train epochs batch_size (1 # 5) in
           (obind r (fun _ => Return model'),
            MkWorld (files w) (dirs w) (clock w)
              (stdout w ++ fit_progress model X_train epochs batch_size))
       end).
Proof.
  split; [eexists; reflexivity|].
  intros df column sequences mn mx Hprep Hne.
  unfold train_lstm_model, build_lstm_model, bind, lift.
  rewrite (prepared_shape _ _ _ _ _ Hprep Hne).
  destruct (Sequential_compiled 30 1) as [m|e]; [|done].
  unfold fit_verbose, reshape_samples.
  destruct (keras_fit m _ _ epochs batch_size (1 # 5)) as [r m'].
  unfold bind, print_lines, modify, lift, ret. simpl. by destruct r.
Qed.

End PipelineProperties.

Lemma prepare_data_column_witness :
  let df := [("value", [Toy.Num 1; Toy.Num 2]); ("other", [Toy.Str "a"])] in
  prepare_data df 1 None = prepare_data df 1 (Some "value") /\
  prepare_data df 1 (Some "missing") = Raise (KeyError "missing").
Proof.
  destruct (prepare_data_column
              [("value", [Toy.Num 1; Toy.Num 2]); ("other", [Toy.Str "a"])] 1)
    as (_ & Hfirst & Hmissing).
  split.
  - exact (Hfirst _ _ _ eq_refl).
  - apply Hmissing. intros name values Hin.
    apply elem_of_cons in Hin as [[= -> _]|Hin]; [done|].
    apply elem_of_cons in Hin as [[= -> _]|Hin]; [done|].
    by apply elem_of_nil in Hin.
Defined.

Lemma prepare_data_bad_column_witness :
  prepare_data [("value", [Toy.Num 1; Toy.Str "n/a"; Toy.Num 2])] 30 None
  = Raise (ValueError "could not convert string to float: n/a").
Proof.
  destruct (prepare_data_bad_column (L:=Toy.toy_lib) "value" [] 30) as [Hbad _].
  exact (Hbad [Toy.Num 1] (Toy.Str "n/a") [Toy.Num 2] _ _ eq_refl eq_refl).
Defined.

Lemma ramp40_converts :
  omap astype_float (map Toy.Num (Toy.ramp 40)) = Return (Toy.ramp 40).
Proof. vm_compute. reflexivity. Qed.

Lemma table40_prepared :
  prepare_data Toy.table40 30 None = Return (Toy.windows40, 1%Q, 40%Q).
Proof. vm_compute. reflexivity. Qed.

Lemma prepare_data_numeric_column_witness :
  exists sequences min_val max_val,
    prepare_data [("value", map Toy.Num (Toy.ramp 40))] 30 None
      = Return (sequences, min_val, max_val) /\
    length sequences = (40 + 1 - 30)%nat.
Proof.
  destruct (prepare_data_numeric_column (L:=Toy.toy_lib) "value"
              (map Toy.Num (Toy.ramp 40)) [] (Toy.ramp 40) 30 ramp40_converts)
    as (sequences & mn & mx & normalized & Hrun & _ & _ & Hlen & _);
    [discriminate|].
  exists sequences, mn, mx. split; [exact Hrun|].
  rewrite Hlen. reflexivity.
Defined.

Lemma train_lstm_model_shape_witness :
  train_lstm_model Toy.windows40 2 32 Toy.empty_world
  = (Return (Toy.Lstm 30 true),
     MkWorld ∅ ∅ "2024-01-01T00:00:00" ["Epoch 1/2"; "Epoch 2/2"]).
Proof.
  destruct (train_lstm_model_shape (L:=Toy.toy_lib) 2 32 Toy.empty_world)
    as [_ Hshape].
  rewrite (Hshape Toy.table40 None _ _ _ table40_prepared).
  - reflexivity.
  - unfold Toy.windows40. discriminate.
Defined.

(** ** train, predict and the other methods *)

Section MethodProperties.
Context {obj cell bytes : Type} `{L : Lib obj cell bytes}.
Implicit Types (s : MState (obj:=obj) (bytes:=bytes)) (data : array_like).

Definition binary_label (l : Z) : Prop := l = 0 \/ l = 1.

Lemma predict_body_returns s data scores_ labels_ s' :
  predict_body data s = (Return (scores_, labels_), s') ->
  exists m scaled raw predictions,
    model (self s') = Some m /\
    transform (scaler (self s')) (as_2d data) = Return scaled /\
    score_samples m scaled = Return raw /\
    predict_samples m scaled = Return predictions /\
    scores_ = map Qopp raw /\
    labels_ = map (fun p => if p =? -1 then 1 else 0) predictions.
Proof.
  destruct s as [me w].
  unfold predict_body, bind, call_scaler, call_model, ret. simpl.
  destruct (transform (scaler me) (as_2d data)) as [scaled|e] eqn:Ht;
    simpl; [|done].
  destruct (model me) as [m|]; simpl; [|done].
  destruct (score_samples m scaled) as [raw|e] eqn:Hs; simpl; [|done].
  destruct (predict_samples m scaled) as [predictions|e] eqn:Hp; simpl; [|done].
  intros [= <- <- <-]. simpl. by exists m, scaled, raw, predictions.
Qed.

Lemma predict_returns s data result s' :
  predict data s = (Return result, s') ->
  exists s0, predict_body data s0 = (Return result, s').
Proof.
  destruct s as [me w].
  unfold predict, bind, get, in_world, os_path_exists, joblib_load, on_self,
    modify, gets, ret, raise, try_except.
  simpl.
  destruct (is_trained me); simpl.
  - destruct (model me) as [m|]; simpl.
    + destruct (predict_body data _) as [[r|e] s1] eqn:Hbody; [|done].
      intros [= <- <-]. eauto.
    + destruct (files w !! model_path me) as [bm|]; simpl; [|done].
      destruct (pickle_loads bm) as [m|e]; simpl; [|done].
      destruct (files w !! scaler_path me) as [bs|]; simpl; [|done].
      destruct (pickle_loads bs) as [sc|e]; simpl; [|done].
      destruct (predict_body data _) as [[r|e] s1] eqn:Hbody; [|done].
      intros [= <- <-]. eauto.
  - destruct (bool_decide _); simpl; [|done].
    destruct (model me) as [m|]; simpl.
    + destruct (predict_body data _) as [[r|e] s1] eqn:Hbody; [|done].
      intros [= <- <-]. eauto.
    + destruct (files w !! model_path me) as [bm|]; simpl; [|done].
      destruct (pickle_loads bm) as [m|e]; simpl; [|done].
      destruct (files w !! scaler_path me) as [bs|]; simpl; [|done].
      destruct (pickle_loads bs) as [sc|e]; simpl; [|done].
      destruct (predict_body data _) as [[r|e] s1] eqn:Hbody; [|done].
      intros [= <- <-]. eauto.
Qed.

Lemma predict_labels_binary_aux s data scores_ labels_ s' :
  predict data s = (Return (scores_, labels_), s') ->
  Forall binary_label labels_.
Proof.
  intros Hrun. destruct (predict_returns _ _ _ _ Hrun) as [s0 Hbody].
  destruct (predict_body_returns _ _ _ _ _ Hbody)
    as (m & scaled & raw & predictions & _ & _ & _ & _ & _ & ->).
  apply Forall_fmap, Forall_forall. intros p _. simpl. unfold binary_label.
  destruct (p =? -1); auto.
Qed.

(** X11. What a [predict] that returns has computed: the scores are the negated
    scores of the model the instance now holds, on the input transformed by
    the scaler it now holds, and the labels are that model's decisions, one
    label per decision, -1 turned into 1 and every other value into 0. *)
Theorem predict_result s data scores_ labels_ s' :
  predict data s = (Return (scores_, labels_), s') ->
  exists m scaled raw predictions,
    model (self s') = Some m /\
    transform (scaler (self s')) (as_2d data) = Return scaled /\
    score_samples m scaled = Return raw /\
    predict_samples m scaled = Return predictions /\
    scores_ = map Qopp raw /\
    length labels_ = length predictions /\
    Forall binary_label labels_ /\
    (forall i : nat, labels_ !! i = Some 1 <-> predictions !! i = Some (-1)).
Proof.
  intros Hrun. destruct (predict_returns _ _ _ _ Hrun) as [s0 Hbody].
  destruct (predict_body_returns _ _ _ _ _ Hbody)
    as (m & scaled & raw & predictions & Hm & Ht & Hs & Hp & -> & ->).
  exists m, scaled, raw, predictions.
  repeat (split; [done|]). split; [by rewrite length_map|]. split.
  - apply Forall_fmap, Forall_forall. intros p _. simpl. unfold binary_label.
    destruct (p =? -1); auto.
  - intros i. rewrite list_lookup_fmap.
    destruct (predictions !! i) as [p|]; simpl; [|done].
    destruct (Z.eqb_spec p (-1)) as [->|Hne]; [done|].
    split; [done|]. by intros [= ->].
Qed.

(** X12. The exceptions of [predict].  With a model object in memory every
    exception it raises is a [ValueError]: the not-trained one, or one whose
    message starts with "Error during prediction: ".  Any other exception
    comes from reading the two files, on an instance without a model
    object. *)
Theorem predict_exceptions s data e :
  fst (predict data s) = Raise e ->
  e = ValueError not_trained_msg \/
  (exists cause, e = ValueError ("Error during prediction: " +:+ exc_str cause)) \/
  (model (self s) = None /\
   (e = FileNotFoundError (model_path (self s)) \/
    e = FileNotFoundError (scaler_path (self s)) \/
    exists b, pickle_loads b = Raise e)).
Proof.
  destruct (model (self s)) as [m|] eqn:Hm.
  - rewrite (predict_with_model s data m Hm). simpl.
    destruct (_ && _); [intros [= <-]; by left|].
    destruct (score_with _ _ _) as [r|cause]; simpl; [done|].
    intros [= <-]. right. left. by exists cause.
  - destruct s as [me w]. simpl in Hm.
    destruct (is_trained me) eqn:Htr.
    + rewrite predict_lazy_load by auto.
      destruct (files w !! model_path me) as [bm|]; simpl;
        [|intros [= <-]; right; right; auto].
      destruct (pickle_loads bm) as [m|e0] eqn:Hbm; simpl;
        [|intros [= <-]; right; right; split; [done|]; right; right; eauto].
      destruct (files w !! scaler_path me) as [bs|]; simpl;
        [|intros [= <-]; right; right; auto].
      destruct (pickle_loads bs) as [sc|e0] eqn:Hbs; simpl;
        [|intros [= <-]; right; right; split; [done|]; right; right; eauto].
      destruct (score_with _ _ _) as [r|cause]; simpl; [done|].
      intros [= <-]. right. left. by exists cause.
    + destruct (files w !! model_path me) as [bm|] eqn:Hfile.
      * rewrite predict_lazy_load by (auto; right; by rewrite Hfile).
        rewrite Hfile.
        destruct (pickle_loads bm) as [m|e0] eqn:Hbm; simpl;
          [|intros [= <-]; right; right; split; [done|]; right; right; eauto].
        destruct (files w !! scaler_path me) as [bs|]; simpl;
          [|intros [= <-]; right; right; auto].
        destruct (pickle_loads bs) as [sc|e0] eqn:Hbs; simpl;
          [|intros [= <-]; right; right; split; [done|]; right; right; eauto].
        destruct (score_with _ _ _) as [r|cause]; simpl; [done|].
        intros [= <-]. right. left. by exists cause.
      * unfold predict, bind, get, in_world, os_path_exists, gets, ret, raise.
        simpl. rewrite Htr. simpl. rewrite Hfile. simpl. intros [= <-]. by left.
Qed.

(** The same instance with another threshold. *)
Definition retune (t : Q) s : MState (obj:=obj) (bytes:=bytes) :=
  MkMState (with_threshold t (self s)) (world s).

Lemma predict_body_retune t s data :
  predict_body data (retune t s) =
    (fst (predict_body data s), retune t (snd (predict_body data s))).
Proof.
  destruct s as [me w].
  unfold retune, predict_body, bind, call_scaler, call_model, ret. simpl.
  destruct (transform (scaler me) (as_2d data)) as [scaled|e]; simpl; [|done].
  destruct (model me) as [m|]; simpl; [|done].
  destruct (score_samples m scaled) as [raw|e]; simpl; [|done].
  by destruct (predict_samples m scaled) as [predictions|e].
Qed.

(** X13. The threshold plays no part in [predict]: with any other threshold
    stored, [predict] gives the same scores, labels or exception and makes
    the same changes to the instance and the world. *)
Theorem predict_ignores_threshold t s data :
  predict data (retune t s) =
    (fst (predict data s), retune t (snd (predict data s))).
Proof.
  destruct s as [me w].
  assert (Hloaded : forall m sc,
    predict_body data
      (MkMState (with_scaler sc (with_model (Some m) (with_threshold t me))) w)
    = (fst (predict_body data (MkMState (with_scaler sc (with_model (Some m) me)) w)),
       retune t (snd (predict_body data
                        (MkMState (with_scaler sc (with_model (Some m) me)) w))))).
  { intros m sc.
    exact (predict_body_retune t
             (MkMState (with_scaler sc (with_model (Some m) me)) w) data). }
  assert (Hkept :
    predict_body data (MkMState (with_threshold t me) w)
    = (fst (predict_body data (MkMState me w)),
       retune t (snd (predict_body data (MkMState me w))))).
  { exact (predict_body_retune t (MkMState me w) data). }
  unfold retune at 1.
  unfold predict, bind, get, in_world, os_path_exists, joblib_load, on_self,
    modify, gets, ret, raise, try_except.
  simpl.
  destruct (is_trained me); simpl.
  - destruct (model me) as [m|] eqn:Hm; simpl.
    + rewrite Hkept.
      by destruct (predict_body data (MkMState me w)) as [[r|e] s1].
    + destruct (files w !! model_path me) as [bm|]; simpl; [|done].
      destruct (pickle_loads bm) as [m|e]; simpl; [|done].
      destruct (files w !! scaler_path me) as [bs|]; simpl; [|done].
      destruct (pickle_loads bs) as [sc|e]; simpl; [|done].
      rewrite Hloaded.
      by destruct (predict_body data
                     (MkMState (with_scaler sc (with_model (Some m) me)) w))
        as [[r|e] s1].
  - destruct (bool_decide _); simpl; [|done].
    destruct (model me) as [m|] eqn:Hm; simpl.
    + rewrite Hkept.
      by destruct (predict_body data (MkMState me w)) as [[r|e] s1].
    + destruct (files w !! model_path me) as [bm|]; simpl; [|done].
      destruct (pickle_loads bm) as [m|e]; simpl; [|done].
      destruct (files w !! scaler_path me) as [bs|]; simpl; [|done].
      destruct (pickle_loads bs) as [sc|e]; simpl; [|done].
      rewrite Hloaded.
      by destruct (predict_body data
                     (MkMState (with_scaler sc (with_model (Some m) me)) w))
        as [[r|e] s1].
Qed.

(** X14. A [train] that fails while fitting.  If [fit_transform] raises, only
    the scaler may have changed.  If the forest's [fit] raises, the scaler
    has been refitted and the model object replaced by the new forest, the
    trained flag is as it was before the call, and nothing was written. *)
Theorem train_fitting_failure s data c :
  (forall e sc,
     fit_transform (scaler (self s)) (as_2d data) = (Raise e, sc) ->
     train data c s =
       (Return (TrainError (exc_str e) (clock (world s))),
        MkMState (with_scaler sc (self s)) (world s))) /\
  (forall scaled sc e forest,
     fit_transform (scaler (self s)) (as_2d data) = (Return scaled, sc) ->
     fit (IsolationForest c 42 100) scaled = (Raise e, forest) ->
     train data c s =
       (Return (TrainError (exc_str e) (clock (world s))),
        MkMState (MkModel (model_path (self s)) (scaler_path (self s)) sc
                          (Some forest) (is_trained (self s)) (threshold (self s)))
                 (world s))).
Proof.
  destruct s as [me w]. simpl.
  unfold train, try_except, train_body, bind, call_scaler, call_model,
    on_self, modify, get, in_world, joblib_dump, lift, now_isoformat,
    gets, ret.
  simpl. split.
  - intros e sc ->. reflexivity.
  - intros scaled sc e forest -> . simpl. intros ->. reflexivity.
Qed.

(** X15. A [train] that fails while saving.  The instance is already marked
    trained and holds the fitted forest and scaler.  If the model file
    cannot be written, no file is written; if the scaler file cannot be
    written, the model file has been written and the scaler file has not.
    In both cases the report is the error report. *)
Theorem train_saving_failure s data c scaled sc forest :
  fit_transform (scaler (self s)) (as_2d data) = (Return scaled, sc) ->
  fit (IsolationForest c 42 100) scaled = (Return tt, forest) ->
  let trained := MkModel (model_path (self s)) (scaler_path (self s)) sc
                         (Some forest) true (threshold (self s)) in
  (forall e,
     write_error (world s) (model_path (self s)) = Some e ->
     train data c s =
       (Return (TrainError (exc_str e) (clock (world s))),
        MkMState trained (world s))) /\
  (forall e,
     write_error (world s) (model_path (self s)) = None ->
     write_error (written (model_path (self s)) forest (world s))
                 (scaler_path (self s)) = Some e ->
     train data c s =
       (Return (TrainError (exc_str e) (clock (world s))),
        MkMState trained (written (model_path (self s)) forest (world s)))).
Proof.
  intros Hft Hfit trained. subst trained. destruct s as [me w]. simpl in *.
  unfold train, try_except, train_body, bind, call_scaler, call_model,
    on_self, modify, get, in_world, joblib_dump, lift, now_isoformat,
    gets, ret.
  simpl. rewrite Hft. simpl. rewrite Hfit. simpl. split.
  - intros e ->. reflexivity.
  - intros e -> . simpl. intros ->. reflexivity.
Qed.

(** X16. [train] writes to its two paths only: every other file, the
    directories, the clock and the printed lines are as before, whether
    the training succeeds or fails. *)
Theorem train_other_files s data c :
  let w' := world (snd (train data c s)) in
  (forall p, p <> model_path (self s) -> p <> scaler_path (self s) ->
     files w' !! p = files (world s) !! p) /\
  dirs w' = dirs (world s) /\ clock w' = clock (world s) /\
  stdout w' = stdout (world s).
Proof.
  destruct s as [me w]. simpl.
  unfold train, try_except, train_body, bind, call_scaler, call_model,
    on_self, modify, get, in_world, joblib_dump, lift, now_isoformat,
    gets, ret.
  simpl.
  destruct (fit_transform (scaler me) (as_2d data)) as [[scaled|e] sc];
    simpl; [|done].
  destruct (fit (IsolationForest c 42 100) scaled) as [[[]|e] forest];
    simpl; [|done].
  destruct (write_error w (model_path me)) as [e1|]; simpl; [done|].
  assert (Hone : forall p, p <> model_path me ->
            files (written (model_path me) forest w) !! p = files w !! p).
  { intros p Hp. unfold written. simpl. by rewrite lookup_insert_ne. }
  destruct (write_error (written (model_path me) forest w) (scaler_path me))
    as [e2|]; simpl; [by split; [auto|]|].
  assert (Htwo : forall p, p <> model_path me -> p <> scaler_path me ->
            files (written (scaler_path me) sc (written (model_path me) forest w))
              !! p = files w !! p).
  { intros p Hp1 Hp2. unfold written. simpl.
    by rewrite !lookup_insert_ne. }
  destruct (score_samples forest scaled) as [raw|e3]; simpl; [|by split].
  destruct (Np.max (map Qopp raw)) as [mx|e4]; simpl; [|by split].
  destruct (Np.min (map Qopp raw)) as [mn|e5]; simpl; by split.
Qed.

(** X18. [predict_batch] turns the not-trained error into a report: on an
    instance that is not trained and has no model file, a batch with at
    least one series gives the error report with the not-trained message,
    and the empty batch gives the success report with no entry.  Nothing
    is raised and nothing changes. *)
Theorem predict_batch_not_trained s :
  is_trained (self s) = false ->
  files (world s) !! model_path (self s) = None ->
  predict_batch [] s = (Return (BatchSuccess ∅ (clock (world s))), s) /\
  forall first rest,
    predict_batch (first :: rest) s =
      (Return (BatchError not_trained_msg (clock (world s))), s).
Proof.
  intros Htr Hfile. destruct s as [me w]. simpl in *. split; [done|].
  intros first rest.
  unfold predict_batch, try_except, bind. simpl.
  unfold series_result, bind, predict, bind, get, in_world, os_path_exists,
    gets, ret, raise.
  simpl. rewrite Htr. simpl. rewrite Hfile. simpl. reflexivity.
Qed.

Lemma foldl_max_binary (rest : list Z) (x : Z) :
  binary_label x -> Forall binary_label rest ->
  (foldl Z.max x rest = 1 <-> 1 ∈ x :: rest).
Proof.
  revert x. induction rest as [|y rest IH]; intros x Hx Hrest; simpl.
  - rewrite list_elem_of_singleton. split; by intros ->.
  - apply Forall_cons in Hrest as [Hy Hrest].
    assert (Hxy : binary_label (Z.max x y)).
    { destruct Hx as [-> | ->], Hy as [-> | ->]; unfold binary_label; simpl; auto. }
    rewrite (IH _ Hxy Hrest). rewrite !elem_of_cons.
    destruct Hx as [-> | ->], Hy as [-> | ->]; simpl; intuition lia.
Qed.

Lemma series_result_entry s d entry s' :
  series_result d s = (Return entry, s') ->
  labels entry <> [] /\ Forall binary_label (labels entry) /\
  (is_anomalous entry = true <-> 1 ∈ labels entry).
Proof.
  unfold series_result, bind, lift, ret.
  destruct (predict _ s) as [[[sc lb]|e] s1] eqn:Hpred; [|done].
  pose proof (predict_labels_binary_aux s _ sc lb s1 Hpred) as Hbin.
  destruct lb as [|x rest]; simpl; [done|].
  intros [= <- <-]. simpl. split; [done|]. split; [done|].
  apply Forall_cons in Hbin as [Hx Hrest].
  rewrite bool_decide_eq_true. by apply foldl_max_binary.
Qed.

Lemma each_series_entries data_list s entries s' :
  each_series data_list s = (Return entries, s') ->
  Forall (fun entry =>
            labels entry <> [] /\ Forall binary_label (labels entry) /\
            (is_anomalous entry = true <-> 1 ∈ labels entry)) entries.
Proof.
  revert s entries s'.
  induction data_list as [|d rest IH]; intros s entries s'; simpl.
  - unfold ret. by intros [= <- _].
  - unfold bind, ret.
    destruct (series_result d s) as [[entry|e] s1] eqn:Hd; [|done].
    destruct (each_series rest s1) as [[entries1|e1] s2] eqn:Hrest; [|done].
    intros [= <- _]. apply Forall_cons. split.
    + by eapply series_result_entry.
    + by eapply IH.
Qed.

Lemma store_results_source entries i results k entry :
  store_results i entries results !! k = Some entry ->
  results !! k = Some entry \/
  exists j, entries !! j = Some entry /\ k = sequence_key (i + j).
Proof.
  revert i results. induction entries as [|e0 rest IH]; intros i results; simpl.
  - by left.
  - intros Hk. apply IH in Hk as [Hk|(j & Hj & ->)].
    + destruct (decide (sequence_key i = k)) as [<-|Hne].
      * rewrite lookup_insert_eq in Hk. injection Hk as <-.
        right. exists 0%nat. by rewrite Nat.add_0_r.
      * rewrite lookup_insert_ne in Hk by done. by left.
    + right. exists (S j). split; [done|]. f_equal. lia.
Qed.

(** X19. Every entry of a success report of [predict_batch] is stored under the
    key [sequence_i] of a series [i] of the batch, has at least one label,
    all labels zero or one, and is marked anomalous exactly when one of its
    labels is 1. *)
Theorem predict_batch_entries s data_list results timestamp s' key entry :
  predict_batch data_list s = (Return (BatchSuccess results timestamp), s') ->
  results !! key = Some entry ->
  (exists i, (i < length data_list)%nat /\ key = sequence_key i) /\
  labels entry <> [] /\ Forall binary_label (labels entry) /\
  (is_anomalous entry = true <-> 1 ∈ labels entry).
Proof.
  unfold predict_batch, try_except, bind. rewrite predict_batch_loop_each.
  destruct (each_series data_list s) as [[entries|e] s1] eqn:Hall;
    unfold in_world, now_isoformat, gets, ret; simpl; [|done].
  intros [= <- _ _] Hkey.
  apply store_results_source in Hkey as [Hkey|(j & Hj & ->)];
    [by rewrite lookup_empty in Hkey|].
  pose proof (each_series_length _ _ _ _ Hall) as Hlen.
  pose proof (each_series_entries _ _ _ _ Hall) as Hentries.
  split.
  - exists j. split; [|done]. apply lookup_lt_Some in Hj. lia.
  - eapply Forall_lookup_1 in Hentries; eauto.
Qed.

(** X20. [get_model_info] raises nothing and changes nothing; the model type it
    reports is always "IsolationForest".  After a [set_threshold] the
    threshold it reports is the new one when that call succeeded, and the
    old one when it raised. *)
Theorem get_model_info_reports s t :
  (exists info,
     get_model_info s = (Return info, s) /\
     info_model_type info = "IsolationForest" /\
     info_is_trained info = is_trained (self s) /\
     info_threshold info = threshold (self s)) /\
  (forall info,
     fst (get_model_info (snd (set_threshold t s))) = Return info ->
     info_threshold info = if in_unit_interval t then t else threshold (self s)).
Proof.
  destruct s as [me w]. split.
  - eexists. unfold get_model_info, bind, get, in_world, now_isoformat, gets, ret.
    simpl. by repeat split.
  - intros info. unfold set_threshold.
    destruct (in_unit_interval t);
      unfold get_model_info, bind, get, in_world, now_isoformat, gets, ret,
        on_self, modify, raise; simpl; by intros [= <-].
Qed.

End MethodProperties.

(** ** get_model, load_model and train_with_dataset *)

Section SingletonProperties.
Context {obj cell bytes : Type} `{L : Lib obj cell bytes}.
Implicit Types (p : Process (obj:=obj) (bytes:=bytes)).

Lemma get_model_raises p e q :
  get_model p = (Raise e, q) -> model_instance p = None /\ q = p.
Proof.
  unfold get_model.
  destruct (model_instance p) as [old|] eqn:Hold; [done|].
  unfold init, bind, os_makedirs, ret.
  destruct (mkdir_error (pworld p) _); simpl; [|done].
  intros [= <- <-]. split; [done|]. destruct p. simpl in *. by subst.
Qed.

(** X21. [get_model] creates the instance once: after a call that returned, a
    further call returns the same instance and changes nothing.  A call
    that raised (the directory could not be made) has cached nothing and
    left the world as it was, so the next call tries again. *)
Theorem get_model_once p :
  (forall inst q, get_model p = (Return inst, q) ->
     model_instance q = Some inst /\ get_model q = (Return inst, q)) /\
  (forall e q, get_model p = (Raise e, q) ->
     model_instance p = None /\ q = p).
Proof.
  split.
  - intros inst q Hget.
    destruct (get_model_returns p inst q Hget) as (Hq & _ & _).
    split; [done|]. unfold get_model. by rewrite Hq.
  - intros e q. apply get_model_raises.
Qed.

(** [load_model] when the singleton exists. *)
Lemma load_model_existing (inst : AnomalyDetectionModel (obj:=obj)) w :
  load_model (MkProcess (Some inst) w) =
    match files w !! model_path inst, files w !! scaler_path inst with
    | Some bm, Some bs =>
        match pickle_loads bm with
        | Raise e => (Raise e, MkProcess (Some inst) w)
        | Return m =>
            match pickle_loads bs with
            | Raise e => (Raise e, MkProcess (Some (with_model (Some m) inst)) w)
            | Return sc =>
                let loaded := MkModel (model_path inst) (scaler_path inst) sc
                                      (Some m) true (threshold inst) in
                (Return loaded, MkProcess (Some loaded) w)
            end
        end
    | _, _ => (Return inst, MkProcess (Some inst) w)
    end.
Proof.
  unfold load_model, get_model, in_pworld, os_path_exists, on_instance,
    in_world, joblib_load, on_self, modify, gets, ret, bind.
  simpl.
  destruct (files w !! model_path inst) as [bm|] eqn:Hbm; simpl; [|done].
  destruct (files w !! scaler_path inst) as [bs|] eqn:Hbs; simpl; [|done].
  rewrite ?Hbm. simpl.
  destruct (pickle_loads bm) as [m|e]; simpl; [|done].
  rewrite ?Hbs. simpl.
  by destruct (pickle_loads bs) as [sc|e].
Qed.

(** X22. With the model file or the scaler file missing, [load_model] returns
    the singleton as it is, reads nothing and raises nothing, even if the
    other file is there. *)
Theorem load_model_missing_file (inst : AnomalyDetectionModel (obj:=obj)) w :
  files w !! model_path inst = None \/ files w !! scaler_path inst = None ->
  load_model (MkProcess (Some inst) w) = (Return inst, MkProcess (Some inst) w).
Proof.
  intros Hmissing. rewrite load_model_existing.
  destruct (files w !! model_path inst) as [bm|]; [|done].
  destruct (files w !! scaler_path inst) as [bs|]; [|done].
  by destruct Hmissing.
Qed.

(** X23. With both files there and loading, [load_model] puts the loaded model
    and scaler in the singleton in place of whatever it held and marks it
    trained; paths and threshold stay. *)
Theorem load_model_replaces (inst : AnomalyDetectionModel (obj:=obj)) w
    bm bs m sc :
  files w !! model_path inst = Some bm -> pickle_loads bm = Return m ->
  files w !! scaler_path inst = Some bs -> pickle_loads bs = Return sc ->
  let loaded := MkModel (model_path inst) (scaler_path inst) sc (Some m) true
                        (threshold inst) in
  load_model (MkProcess (Some inst) w) = (Return loaded, MkProcess (Some loaded) w).
Proof.
  intros Hbm Hm Hbs Hsc. rewrite load_model_existing.
  by rewrite Hbm, Hbs, Hm, Hsc.
Qed.

(** X24. [load_model] does not catch what [joblib.load] raises.  If the model
    file does not load, the singleton is untouched.  If the model file
    loads and the scaler file does not, the singleton is left with the
    loaded model, its old scaler and its old trained flag. *)
Theorem load_model_load_error (inst : AnomalyDetectionModel (obj:=obj)) w bm bs :
  files w !! model_path inst = Some bm ->
  files w !! scaler_path inst = Some bs ->
  (forall e, pickle_loads bm = Raise e ->
     load_model (MkProcess (Some inst) w) = (Raise e, MkProcess (Some inst) w)) /\
  (forall m e, pickle_loads bm = Return m -> pickle_loads bs = Raise e ->
     load_model (MkProcess (Some inst) w) =
       (Raise e,
        MkProcess (Some (MkModel (model_path inst) (scaler_path inst)
                                 (scaler inst) (Some m) (is_trained inst)
                                 (threshold inst))) w)).
Proof.
  intros Hbm Hbs. rewrite load_model_existing, Hbm, Hbs. split.
  - by intros e ->.
  - by intros m e -> ->.
Qed.

(** X25. What [train] saved, [load_model] brings back.  After a [train] that
    reported success on an instance with two different paths, and with a
    [joblib] that loads what it dumped, [load_model] on a singleton with
    the same paths returns an instance that holds the trained forest and
    the fitted scaler and is marked trained, and [predict] on it gives what
    [predict] gives on the instance that was trained. *)
Theorem train_then_load_model s data c report s1
    (other : AnomalyDetectionModel (obj:=obj)) :
  train data c s = (Return report, s1) ->
  train_status report = "success" ->
  model_path (self s) <> scaler_path (self s) ->
  (forall o, pickle_loads (pickle_dumps o) = Return o) ->
  model_path other = model_path (self s) ->
  scaler_path other = scaler_path (self s) ->
  exists loaded,
    load_model (MkProcess (Some other) (world s1))
      = (Return loaded, MkProcess (Some loaded) (world s1)) /\
    model loaded = model (self s1) /\
    scaler loaded = scaler (self s1) /\
    is_trained loaded = true /\
    forall d, fst (predict d (MkMState loaded (world s1))) = fst (predict d s1).
Proof.
  intros Hrun Hok Hpaths Hpickle Hmp Hsp.
  pose proof (train_success_inv s data c report s1 Hrun Hok) as Hbody.
  destruct (train_body_inv s data c report s1 Hbody)
    as (scaled & sc & forest & raw & mx & mn & Hft & Hfit & Hw1 & Hw2 & Hsc & Hmx & Hmn).
  rewrite (train_body_success s data c scaled sc forest raw mx mn) in Hbody
    by done.
  injection Hbody as _ <-. simpl.
  eexists. rewrite load_model_existing. rewrite Hmp, Hsp. unfold written.
  simpl. rewrite lookup_insert_ne by done. rewrite !lookup_insert_eq.
  rewrite !Hpickle. split; [reflexivity|]. simpl.
  split; [done|]. split; [done|]. split; [done|]. intros d.
  rewrite (predict_with_model _ d forest) by done.
  by rewrite (predict_with_model _ d forest) by done.
Qed.

(** The world after one more printed line. *)
Definition printed (line : string) (w : World bytes) : World bytes :=
  MkWorld (files w) (dirs w) (clock w) (stdout w ++ [line]).

(** X26. A [train_with_dataset] that returns [False] has not touched the
    singleton (it has not even created it) and has written no file, made
    no directory and left the clock alone.  It has printed one line of its
    own, last; before that line comes what [train_lstm_model] printed, if
    the run got that far: the world is then the one [train_lstm_model] left
    on the windows of the table, with the line added. *)
Theorem train_with_dataset_failure csv_path p p' :
  train_with_dataset csv_path p = (Return false, p') ->
  model_instance p' = model_instance p /\
  files (pworld p') = files (pworld p) /\
  dirs (pworld p') = dirs (pworld p) /\
  clock (pworld p') = clock (pworld p) /\
  exists line,
    pworld p' = printed line (pworld p) \/
    exists content df sequences min_val max_val r w1,
      files (pworld p) !! csv_path = Some content /\
      read_csv content = Return df /\
      prepare_data df 30 None = Return (sequences, min_val, max_val) /\
      sequences <> [] /\
      train_lstm_model sequences 50 32 (pworld p) = (r, w1) /\
      pworld p' = printed line w1.
Proof.
  intros Hrun. apply train_with_dataset_returned in Hrun. revert Hrun.
  destruct p as [mi w]. simpl.
  unfold train_with_dataset_try, try_except, bind, in_pworld, load_csv, lift,
    print, modify, ret.
  simpl.
  destruct (files w !! csv_path) as [content|] eqn:Hfile; simpl;
    [|intros [= <-]; simpl; eauto 10].
  destruct (read_csv content) as [df|e] eqn:Hread; simpl;
    [|intros [= <-]; simpl; eauto 10].
  destruct (prepare_data df 30 None) as [[[sequences min_val] max_val]|e] eqn:Hprep;
    simpl; [|intros [= <-]; simpl; eauto 10].
  case_bool_decide as Hlen; simpl; [intros [= <-]; simpl; eauto 10|].
  assert (Hne : sequences <> []) by (intros ->; by apply Hlen).
  destruct (train_lstm_model sequences 50 32 w) as [r w1] eqn:Htrain.
  destruct (train_lstm_model_world _ _ _ _ _ _ Htrain) as (Hf & Hd & Hc & _).
  destruct r as [lstm_model|e]; simpl.
  2:{ intros [= <-]. simpl. repeat split; try done.
      eexists. right. exists content, df, sequences, min_val, max_val.
      eexists _, _. by repeat split. }
  destruct (get_model (MkProcess mi w1)) as [[inst|e] q] eqn:Hget; simpl.
  - destruct (get_model_returns _ inst q Hget) as (Hinst & _ & _).
    unfold on_instance, on_self, modify. rewrite Hinst. simpl. done.
  - destruct (get_model_raises _ e q Hget) as [Hnone ->]. simpl in *.
    intros [= <-]. simpl. repeat split; try done.
    eexists. right. exists content, df, sequences, min_val, max_val.
    eexists _, _. by repeat split.
Qed.

Lemma get_model_created p inst q :
  model_instance p = None -> get_model p = (Return inst, q) ->
  scaler inst = StandardScaler /\ model inst = None /\ is_trained inst = false.
Proof.
  intros Hnone. unfold get_model. rewrite Hnone.
  unfold init, bind, os_makedirs, ret.
  destruct (mkdir_error (pworld p) _); simpl; [done|].
  by intros [= <- _].
Qed.

(** X27. What [predict] meets after a [train_with_dataset] that returned
    [True]: the singleton is marked trained and holds as its model the
    object that [train_lstm_model] returned for the windows of the table,
    but its scaler, threshold and paths are those it had before (for a
    singleton created by this call, the scaler is a new [StandardScaler()]
    that nothing has fitted).  [predict] on it reads no file and scores
    with that scaler and the LSTM object. *)
Theorem train_with_dataset_then_predict csv_path p p' :
  train_with_dataset csv_path p = (Return true, p') ->
  exists content df sequences min_val max_val w1 inst lstm_model,
    files (pworld p) !! csv_path = Some content /\
    read_csv content = Return df /\
    prepare_data df 30 None = Return (sequences, min_val, max_val) /\
    train_lstm_model sequences 50 32 (pworld p) = (Return lstm_model, w1) /\
    model_instance p' = Some inst /\ model inst = Some lstm_model /\
    is_trained inst = true /\
    (forall old, model_instance p = Some old ->
       scaler inst = scaler old /\ threshold inst = threshold old /\
       model_path inst = model_path old /\ scaler_path inst = scaler_path old) /\
    (model_instance p = None -> scaler inst = StandardScaler) /\
    forall d,
      on_instance (predict d) p' =
        (prediction_error (score_with (scaler inst) lstm_model d), p').
Proof.
  intros Hrun. apply train_with_dataset_returned in Hrun.
  destruct (train_with_dataset_cases csv_path p) as (b & p1 & Hrun1 & _ & Htrue).
  rewrite Hrun in Hrun1. injection Hrun1 as <- <-.
  destruct (proj1 Htrue eq_refl)
    as (content & df & sequences & min_val & max_val & lstm_model & w1 & inst & q
        & Hfile & Hread & Hprep & _ & Htrain & Hget & ->).
  exists content, df, sequences, min_val, max_val, w1.
  exists (with_is_trained true (with_model (Some lstm_model) inst)), lstm_model.
  do 4 (split; [done|]).
  split; [done|]. split; [done|]. split; [done|]. split; [|split].
  - intros old Hold.
    destruct (get_model_returns _ inst q Hget) as (_ & _ & Hsame).
    by destruct (Hsame old Hold) as [-> _].
  - intros Hnone. simpl.
    by destruct (get_model_created (MkProcess (model_instance p) w1) inst q
                   Hnone Hget) as (-> & _).
  - intros d. unfold on_instance. simpl.
    by rewrite (predict_with_model _ d lstm_model).
Qed.

(** X28. A table whose first column has fewer than thirty values: when the
    column has at least one value and they all convert, [prepare_data]
    gives no window and [train_with_dataset] (its two modules imported)
    prints that no sequences were generated and returns [False]; the
    singleton is not touched. *)
Theorem train_with_dataset_short_table csv_path p content name values rest data :
  import_error "datasets" = None ->
  import_error "train_lstm_model" = None ->
  files (pworld p) !! csv_path = Some content ->
  read_csv content = Return ((name, values) :: rest) ->
  omap astype_float values = Return data ->
  values <> [] ->
  (length values < 30)%nat ->
  train_with_dataset csv_path p =
    (Return false,
     MkProcess (model_instance p)
       (printed "Error: No sequences generated from dataset" (pworld p))).
Proof.
  intros Himp1 Himp2 Hfile Hread Hconv Hne Hshort.
  rewrite train_with_dataset_imported by done.
  pose proof (omap_length _ _ _ Hconv) as Hlen.
  assert (Hdata : data <> []).
  { intros ->. destruct values; [done|discriminate]. }
  destruct (normalize_data_returns data Hdata) as (normalized & mn & mx & Hnorm).
  destruct (normalize_data_inv _ _ _ _ Hnorm) as (_ & _ & _ & Hmap).
  assert (Hprep : prepare_data ((name, values) :: rest) 30 None
                  = Return (DatasetLoader.sequences normalized 30, mn, mx)).
  { unfold prepare_data. simpl. rewrite String.eqb_refl. simpl.
    rewrite Hconv. simpl. rewrite Hnorm. simpl.
    change 30 with (Z.of_nat 30). by rewrite create_sequences_returns. }
  assert (Hempty : length (DatasetLoader.sequences normalized 30) = 0%nat).
  { rewrite sequences_length, Hmap, length_map. lia. }
  destruct p as [mi w]. simpl in *.
  unfold train_with_dataset_try, try_except, bind, in_pworld, load_csv, lift,
    print, modify, ret.
  simpl. rewrite Hfile. simpl. rewrite Hread. simpl. rewrite Hprep. simpl.
  by rewrite bool_decide_eq_true_2.
Qed.

End SingletonProperties.

(** ** Runs of the further properties on the small library instance *)

Lemma create_sequences_contiguous_witness :
  (exists msg,
     DatasetLoader.create_sequences (Toy.ramp 5) (-1) = Raise (ValueError msg)) /\
  DatasetLoader.create_sequences (Toy.ramp 5) (-5) = Return (replicate 11 []) /\
  exists windows, DatasetLoader.create_sequences (Toy.ramp 5) 0 = Return windows.
Proof.
  destruct (create_sequences_contiguous (Toy.ramp 5) (-1)) as (_ & _ & Hraise & _).
  destruct (create_sequences_contiguous (Toy.ramp 5) (-5)) as (_ & _ & _ & Hempty).
  destruct (create_sequences_contiguous (Toy.ramp 5) 0) as (_ & Hreturn & _).
  split; [apply Hraise; simpl; lia|].
  split; [apply Hempty; simpl; lia|].
  apply Hreturn. lia.
Defined.

Lemma trained_predicts :
  predict (PyList [3; 1000]%Q) Toy.trained
  = (Return ([0; 997]%Q, [0; 1]), Toy.trained).
Proof. vm_compute. reflexivity. Qed.

Lemma predict_result_witness :
  exists m predictions,
    model (self Toy.trained) = Some m /\
    predict_samples m [[0]; [997]]%Q = Return predictions /\
    length [0; 1] = length predictions.
Proof.
  destruct (predict_result Toy.trained (PyList [3; 1000]%Q) _ _ _ trained_predicts)
    as (m & scaled & raw & predictions & Hm & Ht & _ & Hp & _ & Hlen & _).
  exists m, predictions. split; [exact Hm|].
  injection Ht as <-. split; [exact Hp | exact Hlen].
Defined.

Lemma predict_exceptions_witness :
  Exc "ValueError" not_trained_msg = ValueError not_trained_msg \/
  (exists cause, Exc "ValueError" not_trained_msg
                 = ValueError ("Error during prediction: " +:+ exc_str cause)) \/
  (model (self Toy.fresh) = None /\
   (Exc "ValueError" not_trained_msg = FileNotFoundError (model_path (self Toy.fresh)) \/
    Exc "ValueError" not_trained_msg = FileNotFoundError (scaler_path (self Toy.fresh)) \/
    exists b, pickle_loads b = Raise (Exc "ValueError" not_trained_msg))).
Proof.
  apply (predict_exceptions Toy.fresh (PyList [3]%Q)). reflexivity.
Defined.

Lemma train_fitting_failure_witness :
  train (PyList [1; 2; 3]%Q) (9 # 10) Toy.trained =
    (Return (TrainError
               "The 'contamination' parameter must be in the range (0.0, 0.5]."
               "2024-01-01T00:00:00"),
     MkMState (MkModel Toy.default_model_path Toy.default_scaler_path
                       (Toy.ScalerFitted 2) (Some (Toy.ForestNew (9 # 10)))
                       true (1 # 2))
              (world Toy.trained)).
Proof.
  destruct (train_fitting_failure Toy.trained (PyList [1; 2; 3]%Q) (9 # 10))
    as [_ Hfit].
  exact (Hfit _ _ _ _ eq_refl eq_refl).
Defined.

Lemma train_saving_failure_witness :
  exists report s',
    train (PyList [1; 2; 3]%Q) (1 # 10) Toy.homeless = (Return report, s') /\
    train_status report = "error" /\
    is_trained (self s') = true /\
    files (world s') = ∅.
Proof.
  assert (Hft : fit_transform (scaler (self Toy.homeless))
                  (as_2d (PyList [1; 2; 3]%Q))
                = (Return [[-1 # 1]; [0]; [1]]%Q, Toy.ScalerFitted 2))
    by (vm_compute; reflexivity).
  assert (Hfit : fit (IsolationForest (1 # 10) 42 100) [[-1 # 1]; [0]; [1]]%Q
                 = (Return tt, Toy.ForestFitted (1 # 10) (9 # 10)))
    by (vm_compute; reflexivity).
  destruct (train_saving_failure Toy.homeless (PyList [1; 2; 3]%Q) (1 # 10)
              _ _ _ Hft Hfit) as [Hmodel _].
  eexists _, _. split; [exact (Hmodel (FileNotFoundError "out/model.pkl") eq_refl)|].
  by repeat split.
Defined.

Lemma train_other_files_witness :
  files (world (snd (train (PyList [1; 2; 3]%Q) (1 # 10)
                       (MkMState (self Toy.fresh) (Toy.table_world 3)))))
    !! "data.csv"
  = files (Toy.table_world 3) !! "data.csv".
Proof.
  destruct (train_other_files (MkMState (self Toy.fresh) (Toy.table_world 3))
              (PyList [1; 2; 3]%Q) (1 # 10)) as [Hfiles _].
  apply Hfiles; discriminate.
Defined.

Lemma trained_report :
  train (PyList [1; 2; 3; 4; 5]%Q) (1 # 10) Toy.fresh =
    (Return (TrainSuccess "Model trained successfully" 5 (6 # 5) 2 0
                          "2024-01-01T00:00:00"),
     Toy.trained).
Proof. vm_compute. reflexivity. Qed.

Lemma predict_batch_not_trained_witness :
  predict_batch [[1]; [2]]%Q Toy.fresh =
    (Return (BatchError not_trained_msg "2024-01-01T00:00:00"), Toy.fresh).
Proof.
  destruct (predict_batch_not_trained Toy.fresh eq_refl eq_refl) as [_ Hbatch].
  exact (Hbatch _ _).
Defined.

Lemma trained_batch :
  predict_batch [[3]; [1000]]%Q Toy.trained =
    (Return (BatchSuccess
               (store_results 0
                  [MkSeqResult [0%Q] [0] false; MkSeqResult [997%Q] [1] true] ∅)
               "2024-01-01T00:00:00"),
     Toy.trained).
Proof. vm_compute. reflexivity. Qed.

Lemma predict_batch_entries_witness :
  is_anomalous (MkSeqResult [997%Q] [1] true) = true <-> 1 ∈ [1].
Proof.
  destruct (predict_batch_entries Toy.trained [[3]; [1000]]%Q _ _ _
              "sequence_1" (MkSeqResult [997%Q] [1] true) trained_batch)
    as (_ & _ & _ & Hflag); [reflexivity|].
  exact Hflag.
Defined.

Lemma get_model_info_reports_witness :
  exists info,
    fst (get_model_info (snd (set_threshold (3 # 4) Toy.fresh))) = Return info /\
    info_threshold info = (3 # 4)%Q.
Proof.
  destruct (get_model_info_reports Toy.fresh (3 # 4)) as [_ Hafter].
  eexists. split; [reflexivity|]. by apply Hafter.
Defined.

Lemma get_model_once_witness :
  exists inst q,
    get_model (Toy.new_process Toy.empty_world) = (Return inst, q) /\
    get_model q = (Return inst, q).
Proof.
  destruct (get_model_once (Toy.new_process Toy.empty_world)) as [Honce _].
  exists (self Toy.fresh), (MkProcess (Some (self Toy.fresh)) (world Toy.fresh)).
  assert (Hget : get_model (Toy.new_process Toy.empty_world)
                 = (Return (self Toy.fresh),
                    MkProcess (Some (self Toy.fresh)) (world Toy.fresh)))
    by (vm_compute; reflexivity).
  split; [exact Hget|]. exact (proj2 (Honce _ _ Hget)).
Defined.

Lemma load_model_missing_file_witness :
  load_model (MkProcess (Some (self Toy.fresh)) Toy.model_file_only)
  = (Return (self Toy.fresh), MkProcess (Some (self Toy.fresh)) Toy.model_file_only).
Proof.
  apply load_model_missing_file. right. reflexivity.
Defined.

Lemma load_model_replaces_witness :
  exists loaded q,
    load_model (MkProcess (Some (self Toy.fresh)) Toy.both_files) = (Return loaded, q) /\
    is_trained loaded = true /\
    scaler loaded = Toy.ScalerFitted 3.
Proof.
  eexists _, _. split.
  - exact (load_model_replaces (self Toy.fresh) Toy.both_files
             (Toy.Pickled (Toy.ForestFitted (1 # 10) (9 # 5)))
             (Toy.Pickled (Toy.ScalerFitted 3))
             (Toy.ForestFitted (1 # 10) (9 # 5)) (Toy.ScalerFitted 3)
             eq_refl eq_refl eq_refl eq_refl).
  - by split.
Defined.

Lemma load_model_load_error_witness :
  exists e q inst,
    load_model (MkProcess (Some (self Toy.fresh)) Toy.bad_scaler_file) = (Raise e, q) /\
    model_instance q = Some inst /\
    model inst = Some (Toy.ForestFitted (1 # 10) (9 # 5)) /\
    scaler inst = Toy.ScalerNew /\ is_trained inst = false.
Proof.
  destruct (load_model_load_error (self Toy.fresh) Toy.bad_scaler_file
              (Toy.Pickled (Toy.ForestFitted (1 # 10) (9 # 5))) (Toy.Table [])
              eq_refl eq_refl) as [_ Hscaler].
  eexists _, _, _. split; [exact (Hscaler _ _ eq_refl eq_refl)|]. by repeat split.
Defined.

Lemma train_then_load_model_witness :
  exists loaded,
    load_model (MkProcess (Some (self Toy.fresh)) (world Toy.trained))
      = (Return loaded, MkProcess (Some loaded) (world Toy.trained)) /\
    model loaded = model (self Toy.trained) /\
    scaler loaded = scaler (self Toy.trained).
Proof.
  assert (Hpaths : model_path (self Toy.fresh) <> scaler_path (self Toy.fresh))
    by (vm_compute; discriminate).
  assert (Hpickle : forall o : Toy.toy_obj, pickle_loads (pickle_dumps o) = Return o)
    by (intros o; reflexivity).
  destruct (train_then_load_model Toy.fresh (PyList [1; 2; 3; 4; 5]%Q) (1 # 10)
              _ _ (self Toy.fresh) trained_report eq_refl Hpaths Hpickle
              eq_refl eq_refl)
    as (loaded & Hload & Hm & Hsc & _).
  exists loaded. split; [exact Hload|]. split; [exact Hm | exact Hsc].
Defined.

Lemma train_with_dataset_failure_witness :
  let p := Toy.new_process (Toy.table_world 40) in
  model_instance (snd (train_with_dataset "none.csv" p)) = None.
Proof.
  assert (Hrun : train_with_dataset "none.csv" (Toy.new_process (Toy.table_world 40))
                 = (Return false,
                    snd (train_with_dataset "none.csv"
                           (Toy.new_process (Toy.table_world 40)))))
    by (vm_compute; reflexivity).
  exact (proj1 (train_with_dataset_failure _ _ _ Hrun)).
Defined.

Lemma train_with_dataset_then_predict_witness :
  let p' := snd (train_with_dataset "data.csv" (Toy.new_process (Toy.table_world 40))) in
  exists inst,
    model_instance p' = Some inst /\ scaler inst = Toy.ScalerNew /\
    fst (on_instance (predict (PyList [3]%Q)) p') =
      Raise (ValueError "Error during prediction: This instance is not fitted yet.").
Proof.
  destruct (train_with_dataset_then_predict "data.csv"
              (Toy.new_process (Toy.table_world 40)) _ toy_dataset_run)
    as (content & df & sequences & min_val & max_val & w1 & inst & lstm_model
        & _ & _ & _ & _ & Hinst & Hmodel & _ & _ & Hnew & Hpredict).
  exists inst. split; [exact Hinst|].
  pose proof (Hnew eq_refl) as Hsc. split; [exact Hsc|].
  rewrite Hpredict, Hsc. reflexivity.
Defined.

Lemma train_with_dataset_short_table_witness :
  train_with_dataset "data.csv" (Toy.new_process (Toy.table_world 20)) =
    (Return false,
     MkProcess None
       (printed "Error: No sequences generated from dataset" (Toy.table_world 20))).
Proof.
  assert (Hconv : omap astype_float (map Toy.Num (Toy.ramp 20)) = Return (Toy.ramp 20))
    by (vm_compute; reflexivity).
  apply (train_with_dataset_short_table "data.csv"
           (Toy.new_process (Toy.table_world 20))
           (Toy.Table [("value", map Toy.Num (Toy.ramp 20))])
           "value" (map Toy.Num (Toy.ramp 20)) [] (Toy.ramp 20)).
  - reflexivity.
  - reflexivity.
  - reflexivity.
  - reflexivity.
  - exact Hconv.
  - discriminate.
  - vm_compute. lia.
Defined.
